(** * picklable_itertools.iter_dispatch

    A shallow embedding of [picklable_itertools/iter_dispatch.py]: the
    dispatcher [iter_] and the iterator classes [range_iterator],
    [file_iterator], [gfile_iterator], [codecs_iterator] and
    [ordered_sequence_iterator], together with the part of the Python host
    they call into (containers held by reference, file objects, [open],
    [gzip.open], decoder objects).

    Python objects that the code shares by reference (lists, dicts, open
    files) live in a store indexed by locations; every method is a state
    and exception passing function over that store and over the attributes
    of [self]. *)

From Stdlib Require Import ZArith Lia.
From Stdlib.Strings Require Import Byte.
From stdpp Require Import gmap strings list fin_maps.

Open Scope Z_scope.

(** ** Values, exceptions, results *)

Definition loc := positive.

Inductive view_kind := dict_items | dict_values | dict_keys.

(** Python values: immutable ones by value, a 2-tuple such as an item of a
    dict ([VPair]), and everything mutable or shared as a reference into the
    store ([Ref]). A range object and a dict view are values that carry
    their parameters (a view refers to its dict). *)
Inductive value :=
| VNone
| VInt (z : Z)
| VStr (s : string)
| VBytes (b : list byte)
| VPair (a b : value)
| Ref (l : loc)
| XRange (start stop step : Z)
| DictView (k : view_kind) (d : loc).

#[global] Instance byte_eq_dec : EqDecision byte := Byte.byte_eq_dec.
#[global] Instance view_kind_eq_dec : EqDecision view_kind.
Proof. solve_decision. Defined.
#[global] Instance value_eq_dec : EqDecision value.
Proof. solve_decision. Defined.

Inductive exn :=
| StopIteration
| AssertionError
| IOError
| AttributeError
| TypeError
| ValueError
| IndexError
| KeyError
| UnicodeError.

Inductive result (A : Type) :=
| Ok (a : A)
| Raise (e : exn).
Arguments Ok {A} a.
Arguments Raise {A} e.

(** The error taxonomy of the design: which class an exception of the
    code falls in. [StopIteration] is the exhaustion signal, a failed
    [assert] is a construction-time type violation, and [IOError] is what
    the host's open raises for a name that does not resolve. *)
Inductive error_class :=
| Exhaustion
| ResourceUnavailable
| TypeInvariant
| OtherError.

Definition classify (e : exn) : error_class :=
  match e with
  | StopIteration => Exhaustion
  | IOError => ResourceUnavailable
  | AssertionError => TypeInvariant
  | _ => OtherError
  end.

(** ** The store *)

(** An open file of the host ([file] on Python 2, an [io.IOBase] on
    Python 3): the name and mode it was opened with, the bytes of the
    resource, and the read position. The mode is kept as the string the file
    was opened with and is not interpreted: the operations below are those of
    a byte stream opened for reading (mode "rb"), which returns bytes, counts
    its position in bytes and leaves the resource alone. A text-mode handle of
    Python 3 (decoded lines, universal newlines, opaque positions) and the
    modes that write, create or truncate are outside the model; the
    statements that depend on the difference ask for a handle that
    [reads_bytes]. *)
Module fileobj.
Record t := mk {
  name : string;
  mode : string;
  data : list byte;
  pos : nat
}.
End fileobj.

(** A [gzip.GzipFile]: [mode] is the wrapper's own attribute, an integer
    constant ([READ] is 1); the mode string the file was opened with is the
    one of [myfileobj], the raw file the wrapper opened itself (absent when
    the wrapper was built over a file object it was handed). [contents] is
    the decompressed stream and [offset] the position in it. *)
Module GzipFile.
Record t := mk {
  name : string;
  mode : Z;
  myfileobj : option fileobj.t;
  contents : list byte;
  offset : nat
}.
Definition READ : Z := 1.
End GzipFile.

Inductive object :=
| OList (xs : list value)
| OTuple (xs : list value)
| ONdarray (xs : list value)
| ODict (items : list (value * value))
| OFile (f : fileobj.t)
| OGzipFile (g : GzipFile.t)
| OIterable (xs : list value).

Abbreviation heap := (gmap loc object).

(** The object a value refers to, and its replacement after a mutation. *)
Definition deref (h : heap) (v : value) : option object :=
  match v with
  | Ref l => h !! l
  | _ => None
  end.

Definition update (h : heap) (v : value) (o : object) : heap :=
  match v with
  | Ref l => <[l := o]> h
  | _ => h
  end.

(** ** State and exception passing *)

(** A computation over a state [S]: it returns a value or raises, and in
    both cases leaves a state behind (what was assigned before a raise stays
    assigned). *)
Definition M (S A : Type) : Type := S -> result A * S.

#[global] Instance M_ret {S} : MRet (M S) := fun A a s => (Ok a, s).
#[global] Instance M_bind {S} : MBind (M S) := fun A B f m s =>
  match m s with
  | (Ok a, s') => f a s'
  | (Raise e, s') => (Raise e, s')
  end.

Definition raise {S A} (e : exn) : M S A := fun s => (Raise e, s).

(** Run a computation on the store from inside a method, whose state is the
    store paired with the attributes of [self]. *)
Definition lift {T A} (m : M heap A) : M (heap * T) A := fun s =>
  match m s.1 with
  | (r, h') => (r, (h', s.2))
  end.

(** ** The host: Python version, file system, file objects *)

Inductive python := Python2 | Python3.

(** [fs] maps the names that resolve to a readable resource to its bytes;
    [gunzip] is the decompressor of the [gzip] module. *)
Record host := {
  version : python;
  NUMPY_AVAILABLE : bool;
  fs : gmap string (list byte);
  gunzip : list byte -> list byte
}.

Module six.
Definition PY2 (hst : host) : bool :=
  match version hst with Python2 => true | Python3 => false end.
Definition PY3 (hst : host) : bool :=
  match version hst with Python2 => false | Python3 => true end.
End six.

(** The next line of a byte string: up to and including the first
    newline, or everything when there is none. *)
Fixpoint first_line (bs : list byte) : list byte :=
  match bs with
  | [] => []
  | b :: bs' => if Byte.eqb b x0a then [b] else b :: first_line bs'
  end.

(** [f.readline()] on a byte stream opened for reading: the line at the
    read position, cut after the first newline byte; the position moves past
    it. At the end of the data the line is empty. *)
Definition readline (f : value) : M heap (list byte) := fun h =>
  match deref h f with
  | Some (OFile o) =>
      let line := first_line (drop (fileobj.pos o) (fileobj.data o)) in
      (Ok line,
       update h f (OFile (fileobj.mk (fileobj.name o) (fileobj.mode o) (fileobj.data o)
                           (fileobj.pos o + length line))))
  | Some (OGzipFile g) =>
      let line := first_line (drop (GzipFile.offset g) (GzipFile.contents g)) in
      (Ok line,
       update h f (OGzipFile (GzipFile.mk (GzipFile.name g) (GzipFile.mode g)
                               (GzipFile.myfileobj g) (GzipFile.contents g)
                               (GzipFile.offset g + length line))))
  | _ => (Raise AttributeError, h)
  end.

(** [f.tell()] on a byte stream: the position, in bytes. *)
Definition tell (f : value) : M heap value := fun h =>
  match deref h f with
  | Some (OFile o) => (Ok (VInt (Z.of_nat (fileobj.pos o))), h)
  | Some (OGzipFile g) => (Ok (VInt (Z.of_nat (GzipFile.offset g))), h)
  | _ => (Raise AttributeError, h)
  end.

(** [f.seek(offset)] on a byte stream: a plain file refuses a negative
    offset (with the error of the operating system) and accepts any other; a
    gzip file rewinds on a negative offset and stops at the end of the
    stream. *)
Definition seek (f : value) (offset : value) : M heap () := fun h =>
  match deref h f with
  | Some (OFile o) =>
      match offset with
      | VInt z =>
          if z <? 0 then (Raise IOError, h)
          else (Ok (),
                update h f (OFile (fileobj.mk (fileobj.name o) (fileobj.mode o)
                                     (fileobj.data o) (Z.to_nat z))))
      | _ => (Raise TypeError, h)
      end
  | Some (OGzipFile g) =>
      match offset with
      | VInt z =>
          (Ok (),
           update h f (OGzipFile (GzipFile.mk (GzipFile.name g) (GzipFile.mode g)
                                   (GzipFile.myfileobj g) (GzipFile.contents g)
                                   (Z.to_nat z `min` length (GzipFile.contents g)))))
      | _ => (Raise TypeError, h)
      end
  | _ => (Raise AttributeError, h)
  end.

(** The attributes [f.name], [f.mode] and [f.myfileobj.mode]. *)
Definition attr_name (f : value) : M heap value := fun h =>
  match deref h f with
  | Some (OFile o) => (Ok (VStr (fileobj.name o)), h)
  | Some (OGzipFile g) => (Ok (VStr (GzipFile.name g)), h)
  | _ => (Raise AttributeError, h)
  end.

Definition attr_mode (f : value) : M heap value := fun h =>
  match deref h f with
  | Some (OFile o) => (Ok (VStr (fileobj.mode o)), h)
  | Some (OGzipFile g) => (Ok (VInt (GzipFile.mode g)), h)
  | _ => (Raise AttributeError, h)
  end.

Definition attr_myfileobj_mode (f : value) : M heap value := fun h =>
  match deref h f with
  | Some (OGzipFile g) =>
      match GzipFile.myfileobj g with
      | Some raw => (Ok (VStr (fileobj.mode raw)), h)
      | None => (Raise AttributeError, h)
      end
  | _ => (Raise AttributeError, h)
  end.

(** Allocation of a new object. *)
Definition alloc (o : object) : M heap value := fun h =>
  let l := fresh (dom h) in (Ok (Ref l), <[l := o]> h).

(** [open(name, mode=mode)] for the modes that read an existing resource:
    a new file object at position 0, or [IOError] when the name does not
    resolve. The mode is recorded on the new handle and has no other effect:
    what a mode that writes, creates or truncates does to the resource is not
    modelled, and the file system of the host is fixed. *)
Definition open (hst : host) (name mode : value) : M heap value :=
  match name, mode with
  | VStr n, VStr m =>
      match fs hst !! n with
      | Some bytes => alloc (OFile (fileobj.mk n m bytes 0))
      | None => raise IOError
      end
  | _, _ => raise TypeError
  end.

(** [gzip.open(name, mode=mode)] for reading: the wrapper opens the raw
    file itself and reads the decompressed stream. The raw file records the
    mode as it was passed, and decompression is a total function of the host:
    bytes that are not gzip data are not modelled. *)
Module gzip.
Definition open (hst : host) (name mode : value) : M heap value :=
  match name, mode with
  | VStr n, VStr m =>
      match fs hst !! n with
      | Some bytes =>
          alloc (OGzipFile (GzipFile.mk n GzipFile.READ
                              (Some (fileobj.mk n m bytes 0))
                              (gunzip hst bytes) 0))
      | None => raise IOError
      end
  | _, _ => raise TypeError
  end.
End gzip.

(** ** Sequences and other iterables of the host *)

(** [xs[i]] on a sequence, with Python's negative indices. *)
Definition index (xs : list value) (i : Z) : result value :=
  let n := Z.of_nat (length xs) in
  let j := if i <? 0 then i + n else i in
  if (0 <=? j) && (j <? n) then
    match xs !! Z.to_nat j with
    | Some v => Ok v
    | None => Raise IndexError
    end
  else Raise IndexError.

Fixpoint dict_get (items : list (value * value)) (k : value) : option value :=
  match items with
  | [] => None
  | (k', v) :: rest => if decide (k' = k) then Some v else dict_get rest k
  end.

(** The number of elements of a range object. *)
Definition range_len (start stop step : Z) : Z :=
  if (0 <? step) && (start <? stop) then (stop - start - 1) / step + 1
  else if (step <? 0) && (stop <? start) then (start - stop - 1) / (- step) + 1
  else 0.

Definition range_values (start stop step : Z) : list value :=
  (fun i => VInt (start + step * Z.of_nat i)) <$> seq 0 (Z.to_nat (range_len start stop step)).

Fixpoint chars (s : string) : list value :=
  match s with
  | EmptyString => []
  | String c s' => VStr (String c EmptyString) :: chars s'
  end.

Definition byte_values (hst : host) (b : list byte) : list value :=
  match version hst with
  | Python2 => (fun c => VBytes [c]) <$> b
  | Python3 => (fun c => VInt (Z.of_N (Byte.to_N c))) <$> b
  end.

Definition view_values (k : view_kind) (items : list (value * value)) : list value :=
  match k with
  | dict_keys => fst <$> items
  | dict_values => snd <$> items
  | dict_items => (fun kv => VPair kv.1 kv.2) <$> items
  end.

(** The elements an object holds, in iteration order; [None] for an object
    that cannot be iterated over (or, for a file, is not iterated this way). *)
Definition elements_of (hst : host) (h : heap) (obj : value) : option (list value) :=
  match obj with
  | VStr s => Some (chars s)
  | VBytes b => Some (byte_values hst b)
  | VPair a b => Some [a; b]
  | XRange start stop step => Some (range_values start stop step)
  | DictView k d =>
      match h !! d with
      | Some (ODict items) => Some (view_values k items)
      | _ => None
      end
  | Ref l =>
      match h !! l with
      | Some (OList xs) | Some (OTuple xs) | Some (ONdarray xs) | Some (OIterable xs) => Some xs
      | Some (ODict items) => Some (fst <$> items)
      | _ => None
      end
  | _ => None
  end.

(** [len(s)] *)
Definition len (hst : host) (s : value) : M heap Z := fun h =>
  match s, deref h s with
  | Ref _, Some (OIterable _) => (Raise TypeError, h)
  | _, _ =>
      match elements_of hst h s with
      | Some xs => (Ok (Z.of_nat (length xs)), h)
      | None => (Raise TypeError, h)
      end
  end.

(** [s[i]]: positional on sequences, by key on a dict; views and plain
    iterables cannot be subscripted. *)
Definition getitem (hst : host) (s : value) (i : Z) : M heap value := fun h =>
  match s with
  | DictView _ _ => (Raise TypeError, h)
  | Ref l =>
      match h !! l with
      | Some (OList xs) | Some (OTuple xs) | Some (ONdarray xs) => (index xs i, h)
      | Some (ODict items) =>
          match dict_get items (VInt i) with
          | Some v => (Ok v, h)
          | None => (Raise KeyError, h)
          end
      | _ => (Raise TypeError, h)
      end
  | _ =>
      match elements_of hst h s with
      | Some xs => (index xs i, h)
      | None => (Raise TypeError, h)
      end
  end.

(** [list(obj)]: a new list holding the elements of [obj]. *)
Definition list_ (hst : host) (obj : value) : M heap value := fun h =>
  match elements_of hst h obj with
  | Some xs => alloc (OList xs) h
  | None => (Raise TypeError, h)
  end.

(** [obj.keys()]: a new list on Python 2, a view of the dict on Python 3. *)
Definition keys (hst : host) (obj : value) : M heap value := fun h =>
  match obj with
  | Ref d =>
      match h !! d with
      | Some (ODict items) =>
          match version hst with
          | Python2 => alloc (OList (fst <$> items)) h
          | Python3 => (Ok (DictView dict_keys d), h)
          end
      | _ => (Raise AttributeError, h)
      end
  | _ => (Raise AttributeError, h)
  end.

(** Access to [self] from a method. *)
Definition get_self {T} : M (heap * T) T := fun s => (Ok s.2, s).
Definition set_self {T} (self : T) : M (heap * T) () := fun s => (Ok (), (s.1, self)).

(** An attribute that may not have been assigned yet. *)
Definition getattr {T A} (a : T -> option A) : M (heap * T) A := fun s =>
  match a s.2 with
  | Some x => (Ok x, s)
  | None => (Raise AttributeError, s)
  end.

(** [not line] on what [readline] returned. *)
Definition is_empty {A} (line : list A) : bool :=
  match line with
  | [] => true
  | _ :: _ => false
  end.

(** ** The iterator classes *)

(** [class ordered_sequence_iterator]: [_sequence] is the container itself
    (a reference for a list, never a copy), [_position] the index of the next
    element. *)
Module ordered_sequence_iterator.
Record t := mk {
  _sequence : value;
  _position : Z
}.

Definition __init__ (sequence : value) : t := mk sequence 0.

Definition __next__ (hst : host) : M (heap * t) value :=
  self ← get_self;
  n ← lift (len hst (_sequence self));
  if _position self <? n then
    value ← lift (getitem hst (_sequence self) (_position self));
    set_self (mk (_sequence self) (_position self + 1));;
    mret value
  else raise StopIteration.
End ordered_sequence_iterator.

(** [class range_iterator] *)
Module range_iterator.
Record t := mk {
  _start : Z;
  _stop : Z;
  _step : Z;
  _n : Z
}.

(** [xrange_.__reduce__()[1]]: start, the stop the range really ends
    at, and step. *)
Definition reduce_args (xrange_ : value) : result (Z * Z * Z) :=
  match xrange_ with
  | XRange start stop step =>
      Ok (start, start + range_len start stop step * step, step)
  | _ => Raise AttributeError
  end.

Definition __init__ (xrange_ : value) : result t :=
  match reduce_args xrange_ with
  | Ok (start, stop, step) => Ok (mk start stop step start)
  | Raise e => Raise e
  end.

Definition __next__ : M (heap * t) value :=
  self ← get_self;
  if (0 <? _step self) && (_n self <? _stop self)
     || (_step self <? 0) && (_stop self <? _n self) then
    let value := _n self in
    set_self (mk (_start self) (_stop self) (_step self) (_n self + _step self));;
    mret (VInt value)
  else raise StopIteration.
End range_iterator.

(** [class file_iterator]. [_f] is [None] on an object whose attribute has
    not been assigned: the object [__new__] makes before [__setstate__]
    runs. *)
Module file_iterator.
Record t := mk { _f : option value }.

Definition new : t := mk None.

Definition __init__ (f : value) : t := mk (Some f).

Definition __next__ : M (heap * t) value :=
  f ← getattr _f;
  line ← lift (readline f);
  if is_empty line then raise StopIteration
  else mret (VBytes line).

Definition __getstate__ : M (heap * t) (value * value * value) :=
  f ← getattr _f;
  name ← lift (attr_name f);
  pos ← lift (tell f);
  mode ← lift (attr_mode f);
  mret (name, pos, mode).

Definition __setstate__ (hst : host) (state : value * value * value)
  : M (heap * t) () :=
  let '(name, pos, mode) := state in
  f ← lift (open hst name mode);
  set_self (mk (Some f));;
  f ← getattr _f;
  lift (seek f pos).
End file_iterator.

(** [class gfile_iterator(file_iterator)]: the attribute, [__init__] and
    [__next__] are the parent's. *)
Module gfile_iterator.
Definition t := file_iterator.t.
Definition new : t := file_iterator.new.
Definition __init__ : value -> t := file_iterator.__init__.
Definition __next__ : M (heap * t) value := file_iterator.__next__.

Definition __getstate__ : M (heap * t) (value * value * value) :=
  f ← getattr file_iterator._f;
  name ← lift (attr_name f);
  pos ← lift (tell f);
  mode ← lift (attr_myfileobj_mode f);
  mret (name, pos, mode).

Definition __setstate__ (hst : host) (state : value * value * value)
  : M (heap * t) () :=
  let '(name, pos, mode) := state in
  f ← lift (gzip.open hst name mode);
  set_self (file_iterator.mk (Some f));;
  f ← getattr file_iterator._f;
  lift (seek f pos).
End gfile_iterator.

(** ** The host's own iterators *)

(** The iterator [iter] returns for a list, tuple or array: it holds the
    sequence by reference and drops it once it has run past the end. *)
Module listiterator.
Record t := mk {
  it_seq : option value;
  it_index : Z
}.

Definition __next__ (hst : host) : M (heap * t) value :=
  self ← get_self;
  match it_seq self with
  | None => raise StopIteration
  | Some sequence =>
      n ← lift (len hst sequence);
      if it_index self <? n then
        item ← lift (getitem hst sequence (it_index self));
        set_self (mk (it_seq self) (it_index self + 1));;
        mret item
      else
        set_self (mk None (it_index self));;
        raise StopIteration
  end.
End listiterator.

(** The iterator [iter] returns for any other iterable, given by the values
    it has yet to yield. *)
Module valueiterator.
Record t := mk { rest : list value }.

Definition __next__ : M (heap * t) value :=
  self ← get_self;
  match rest self with
  | [] => raise StopIteration
  | item :: items => set_self (mk items);; mret item
  end.
End valueiterator.

(** What the dispatcher can return: one of the module's wrappers or an
    iterator of the host. *)
Inductive iterator :=
| Seq (it : ordered_sequence_iterator.t)
| Range (it : range_iterator.t)
| File (it : file_iterator.t)
| GFile (it : gfile_iterator.t)
| ListIter (it : listiterator.t)
| ValueIter (it : valueiterator.t).

(** [iter(obj)]: a list iterator over a sequence of the store (by
    reference), an iterator over the elements of any other iterable,
    [TypeError] for what cannot be iterated. (A file object is its own
    iterator; the dispatcher never passes one on to [iter], and the model
    does not cover that case.) *)
Definition iter (hst : host) (obj : value) : M heap iterator := fun h =>
  match deref h obj with
  | Some (OList _) | Some (OTuple _) | Some (ONdarray _) =>
      (Ok (ListIter (listiterator.mk (Some obj) 0)), h)
  | _ =>
      match elements_of hst h obj with
      | Some xs => (Ok (ValueIter (valueiterator.mk xs)), h)
      | None => (Raise TypeError, h)
      end
  end.

(** ** Types and [isinstance] *)

Module ty.
Inductive t :=
| dict
| GzipFile
| file
| IOBase
| list
| tuple
| xrange
| ndarray
| dict_items
| dict_values
| dict_keys.
End ty.

(** A [GzipFile] is an [io.IOBase] but not a Python 2 [file]. *)
Definition instance_of (h : heap) (obj : value) (c : ty.t) : bool :=
  match c, obj, deref h obj with
  | ty.dict, _, Some (ODict _) => true
  | ty.GzipFile, _, Some (OGzipFile _) => true
  | ty.file, _, Some (OFile _) => true
  | ty.IOBase, _, Some (OFile _) => true
  | ty.IOBase, _, Some (OGzipFile _) => true
  | ty.list, _, Some (OList _) => true
  | ty.tuple, _, Some (OTuple _) => true
  | ty.tuple, VPair _ _, _ => true
  | ty.xrange, XRange _ _ _, _ => true
  | ty.ndarray, _, Some (ONdarray _) => true
  | ty.dict_items, DictView dict_items _, _ => true
  | ty.dict_values, DictView dict_values _, _ => true
  | ty.dict_keys, DictView dict_keys _, _ => true
  | _, _, _ => false
  end.

Definition isinstance (h : heap) (obj : value) (classes : list ty.t) : bool :=
  existsb (instance_of h obj) classes.

(** ** The dispatcher *)

Definition iter_ (hst : host) (obj : value) : M heap iterator := fun h =>
  let file_types := if six.PY2 hst then [ty.file] else [ty.IOBase] in
  let dict_view := [ty.dict_items; ty.dict_values; ty.dict_keys] in
  if isinstance h obj [ty.dict] then
    (ks ← keys hst obj;
     sequence ← list_ hst ks;
     mret (Seq (ordered_sequence_iterator.__init__ sequence))) h
  else if isinstance h obj [ty.GzipFile] then
    (Ok (GFile (gfile_iterator.__init__ obj)), h)
  else if isinstance h obj file_types then
    (Ok (File (file_iterator.__init__ obj)), h)
  else if six.PY2 hst && isinstance h obj [ty.list; ty.tuple] then
    (Ok (Seq (ordered_sequence_iterator.__init__ obj)), h)
  else if six.PY2 hst && isinstance h obj [ty.xrange] then
    match range_iterator.__init__ obj with
    | Ok it => (Ok (Range it), h)
    | Raise e => (Raise e, h)
    end
  else if six.PY2 hst && NUMPY_AVAILABLE hst && isinstance h obj [ty.ndarray] then
    (Ok (Seq (ordered_sequence_iterator.__init__ obj)), h)
  else if six.PY3 hst && isinstance h obj dict_view then
    (sequence ← list_ hst obj;
     mret (Seq (ordered_sequence_iterator.__init__ sequence))) h
  else iter hst obj h.

(** ** Decoders *)

(** The bytes of a file object that lie after its read position, and
    [f.read(n)]'s effect on the position. *)
Definition unread (f : value) : M heap (list byte) := fun h =>
  match deref h f with
  | Some (OFile o) => (Ok (drop (fileobj.pos o) (fileobj.data o)), h)
  | Some (OGzipFile g) => (Ok (drop (GzipFile.offset g) (GzipFile.contents g)), h)
  | _ => (Raise AttributeError, h)
  end.

Definition advance (f : value) (n : nat) : M heap () := fun h =>
  match deref h f with
  | Some (OFile o) =>
      (Ok (),
       update h f (OFile (fileobj.mk (fileobj.name o) (fileobj.mode o) (fileobj.data o)
                           (fileobj.pos o + n `min` length (drop (fileobj.pos o) (fileobj.data o))))))
  | Some (OGzipFile g) =>
      (Ok (),
       update h f (OGzipFile (GzipFile.mk (GzipFile.name g) (GzipFile.mode g)
                               (GzipFile.myfileobj g) (GzipFile.contents g)
                               (GzipFile.offset g
                                + n `min` length (drop (GzipFile.offset g) (GzipFile.contents g))))))
  | _ => (Raise AttributeError, h)
  end.

(** A stateful line decoder over a raw handle (a [codecs.StreamReader]): the
    handle it reads from, the four buffer attributes, and the [readline] of
    its class. The text decoding itself is the host's: [readline] is given by
    what it does with the four attributes and the bytes the handle has yet to
    deliver, namely the line it returns (or the exception it raises), the new
    attributes, and how many bytes it has read from the handle. *)
Module decoder.
Record attrs := mkattrs {
  bytebuffer : list byte;
  charbuffer : option string;
  linebuffer : option (list string);
  errors : string
}.

Definition method : Type := attrs -> list byte -> result string * attrs * nat.

Record t := mk {
  readline_method : method;
  stream : value;
  attributes : attrs
}.

Definition readline : M (heap * t) string := fun s =>
  let self := s.2 in
  match unread (stream self) s.1 with
  | (Ok bytes, h) =>
      match readline_method self (attributes self) bytes with
      | (r, a, n) =>
          match advance (stream self) n h with
          | (_, h') => (r, (h', mk (readline_method self) (stream self) a))
          end
      end
  | (Raise e, h) => (Raise e, (h, self))
  end.
End decoder.

(** A decoder factory: a callable that builds a decoder from a raw handle. *)
Definition generator : Type := value -> M heap decoder.t.

(** The factory [codecs.getreader] returns: the decoder class itself, whose
    instances start from given attributes. *)
Definition getreader (readline : decoder.method) (init : decoder.attrs) : generator :=
  fun f h => (Ok (decoder.mk readline f init), h).

(** [it._f] on what the dispatcher returned. *)
Definition iterator_f (it : iterator) : result value :=
  match it with
  | File it | GFile it =>
      match file_iterator._f it with
      | Some f => Ok f
      | None => Raise AttributeError
      end
  | _ => Raise AttributeError
  end.

(** [isinstance(it, (file_iterator, gfile_iterator))] *)
Definition is_file_iterator (it : iterator) : bool :=
  match it with
  | File _ | GFile _ => true
  | _ => false
  end.

(** [class codecs_iterator]; an attribute is [None] while unassigned. *)
Module codecs_iterator.
Record t := mk {
  _file_iterator : option iterator;
  _stream_generator : option generator;
  _stream : option decoder.t
}.

Definition new : t := mk None None None.

Definition state : Type :=
  iterator * generator * list byte * option string * option (list string) * string.

Definition set_file_iterator (it : iterator) : M (heap * t) () := fun s =>
  (Ok (), (s.1, mk (Some it) (_stream_generator s.2) (_stream s.2))).
Definition set_stream_generator (g : generator) : M (heap * t) () := fun s =>
  (Ok (), (s.1, mk (_file_iterator s.2) (Some g) (_stream s.2))).
Definition set_stream (d : decoder.t) : M (heap * t) () := fun s =>
  (Ok (), (s.1, mk (_file_iterator s.2) (_stream_generator s.2) (Some d))).

(** [self._stream_generator(self._file_iterator._f)] *)
Definition call_stream_generator : M (heap * t) decoder.t :=
  g ← getattr _stream_generator;
  it ← getattr _file_iterator;
  match iterator_f it with
  | Ok f => lift (g f)
  | Raise e => raise e
  end.

(** An assignment to one attribute of [self._stream]. *)
Definition set_stream_attrs (upd : decoder.attrs -> decoder.attrs) : M (heap * t) () :=
  d ← getattr _stream;
  set_stream (decoder.mk (decoder.readline_method d) (decoder.stream d)
                (upd (decoder.attributes d))).

Definition __init__ (hst : host) (f : value) (stream : generator) : M (heap * t) () :=
  fun s =>
  if negb (isinstance s.1 f [ty.GzipFile; if six.PY2 hst then ty.file else ty.IOBase])
  then (Raise AssertionError, s)
  else
    (it ← lift (iter_ hst f);
     set_file_iterator it;;
     it ← getattr _file_iterator;
     if negb (is_file_iterator it) then raise AssertionError
     else
       set_stream_generator stream;;
       d ← call_stream_generator;
       set_stream d) s.

(** [self._stream.readline()] *)
Definition stream_readline : M (heap * t) string := fun s =>
  match _stream s.2 with
  | Some d =>
      match decoder.readline (s.1, d) with
      | (r, (h', d')) => (r, (h', mk (_file_iterator s.2) (_stream_generator s.2) (Some d')))
      end
  | None => (Raise AttributeError, s)
  end.

Definition __next__ : M (heap * t) value :=
  line ← stream_readline;
  if bool_decide (line = EmptyString) then raise StopIteration
  else mret (VStr line).

Definition __getstate__ : M (heap * t) state :=
  it ← getattr _file_iterator;
  g ← getattr _stream_generator;
  d ← getattr _stream;
  mret (it, g,
        decoder.bytebuffer (decoder.attributes d),
        decoder.charbuffer (decoder.attributes d),
        decoder.linebuffer (decoder.attributes d),
        decoder.errors (decoder.attributes d)).

Definition __setstate__ (state : state) : M (heap * t) () :=
  let '(it, g, bytebuffer, charbuffer, linebuffer, errors) := state in
  set_file_iterator it;;
  set_stream_generator g;;
  d ← call_stream_generator;
  set_stream d;;
  set_stream_attrs (fun a => decoder.mkattrs bytebuffer (decoder.charbuffer a)
                               (decoder.linebuffer a) (decoder.errors a));;
  set_stream_attrs (fun a => decoder.mkattrs (decoder.bytebuffer a) charbuffer
                               (decoder.linebuffer a) (decoder.errors a));;
  set_stream_attrs (fun a => decoder.mkattrs (decoder.bytebuffer a) (decoder.charbuffer a)
                               linebuffer (decoder.errors a));;
  set_stream_attrs (fun a => decoder.mkattrs (decoder.bytebuffer a) (decoder.charbuffer a)
                               (decoder.linebuffer a) errors).
End codecs_iterator.

(** ** Wrappers, iteration, snapshots *)

(** Every iterator of the module: what the dispatcher returns, or a
    [codecs_iterator]. *)
Inductive wrapper :=
| Plain (it : iterator)
| Codecs (it : codecs_iterator.t).

(** A method call on an attribute or a component: run [m] on [self] and put
    what it leaves of [self] back with [wrap]. *)
Definition on_self {T U A} (self : T) (wrap : T -> U) (m : M (heap * T) A)
  : M (heap * U) A := fun s =>
  match m (s.1, self) with
  | (r, (h', self')) => (r, (h', wrap self'))
  end.

(** A new object set up by [m]; the object is dropped when [m] raises. *)
Definition instantiate {T} (new : T) (m : M (heap * T) ()) : M heap T := fun h =>
  match m (h, new) with
  | (Ok _, (h', self)) => (Ok self, h')
  | (Raise e, (h', _)) => (Raise e, h')
  end.

(** A method that only reads [self], called from outside. *)
Definition call {T A} (self : T) (m : M (heap * T) A) : M heap A := fun h =>
  match m (h, self) with
  | (r, (h', _)) => (r, h')
  end.

(** [next(it)] *)
Definition next_iterator (hst : host) : M (heap * iterator) value := fun s =>
  match s.2 with
  | Seq it => on_self it Seq (ordered_sequence_iterator.__next__ hst) s
  | Range it => on_self it Range range_iterator.__next__ s
  | File it => on_self it File file_iterator.__next__ s
  | GFile it => on_self it GFile gfile_iterator.__next__ s
  | ListIter it => on_self it ListIter (listiterator.__next__ hst) s
  | ValueIter it => on_self it ValueIter valueiterator.__next__ s
  end.

Definition next (hst : host) : M (heap * wrapper) value := fun s =>
  match s.2 with
  | Plain it => on_self it Plain (next_iterator hst) s
  | Codecs it => on_self it Codecs codecs_iterator.__next__ s
  end.

(** [n] calls of [next] in a row: what each call returned or raised, and the
    store and iterator they leave. *)
Fixpoint consume (hst : host) (n : nat) (s : heap * wrapper)
  : list (result value) * (heap * wrapper) :=
  match n with
  | O => ([], s)
  | S n' =>
      match next hst s with
      | (r, s') =>
          match consume hst n' s' with
          | (rs, s'') => (r :: rs, s'')
          end
      end
  end.

(** Modelled from the spec: the state hooks of [ordered_sequence_iterator]
    and [range_iterator] are those of their base class [BaseItertool]
    (picklable_itertools/base.py), which is not among the sources. For the
    sequence iterator the design says: capture_state() returns
    (sequence_reference, position); restore_state(state) sets both fields
    directly, with no I/O. The range iterator has the same base class and is
    given the same treatment over its four fields. *)
Module BaseItertool.
Definition sequence_capture_state (self : ordered_sequence_iterator.t) : value * Z :=
  (ordered_sequence_iterator._sequence self, ordered_sequence_iterator._position self).

Definition sequence_restore_state (state : value * Z) : ordered_sequence_iterator.t :=
  ordered_sequence_iterator.mk state.1 state.2.

Definition range_capture_state (self : range_iterator.t) : Z * Z * Z * Z :=
  (range_iterator._start self, range_iterator._stop self,
   range_iterator._step self, range_iterator._n self).

Definition range_restore_state (state : Z * Z * Z * Z) : range_iterator.t :=
  let '(start, stop, step, n) := state in range_iterator.mk start stop step n.
End BaseItertool.

(** The snapshot of an iterator: its class and the state its hook returned. *)
Inductive snapshot :=
| SeqState (state : value * Z)
| RangeState (state : Z * Z * Z * Z)
| FileState (state : value * value * value)
| GFileState (state : value * value * value).

(** The snapshot of a wrapper. The state of a [codecs_iterator] holds the
    inner iterator itself, which is captured in its turn by its own hook. *)
Inductive state :=
| IteratorState (s : snapshot)
| CodecsState (inner : snapshot) (g : generator) (bytebuffer : list byte)
    (charbuffer : option string) (linebuffer : option (list string)) (errors : string).

(** The iterators of the host are not snapshot by this module. *)
Definition capture_iterator (it : iterator) : M heap snapshot :=
  match it with
  | Seq it => mret (SeqState (BaseItertool.sequence_capture_state it))
  | Range it => mret (RangeState (BaseItertool.range_capture_state it))
  | File it => st ← call it file_iterator.__getstate__; mret (FileState st)
  | GFile it => st ← call it gfile_iterator.__getstate__; mret (GFileState st)
  | ListIter _ | ValueIter _ => raise TypeError
  end.

Definition restore_iterator (hst : host) (s : snapshot) : M heap iterator :=
  match s with
  | SeqState st => mret (Seq (BaseItertool.sequence_restore_state st))
  | RangeState st => mret (Range (BaseItertool.range_restore_state st))
  | FileState st =>
      it ← instantiate file_iterator.new (file_iterator.__setstate__ hst st); mret (File it)
  | GFileState st =>
      it ← instantiate gfile_iterator.new (gfile_iterator.__setstate__ hst st); mret (GFile it)
  end.

Definition capture_state (w : wrapper) : M heap state :=
  match w with
  | Plain it => s ← capture_iterator it; mret (IteratorState s)
  | Codecs it =>
      st ← call it codecs_iterator.__getstate__;
      let '(inner, g, bytebuffer, charbuffer, linebuffer, errors) := st in
      s ← capture_iterator inner;
      mret (CodecsState s g bytebuffer charbuffer linebuffer errors)
  end.

(** Restoring into a fresh wrapper: the components of the state are rebuilt
    first, then [__setstate__] runs on a new object of the class. *)
Definition restore_state (hst : host) (st : state) : M heap wrapper :=
  match st with
  | IteratorState s => it ← restore_iterator hst s; mret (Plain it)
  | CodecsState s g bytebuffer charbuffer linebuffer errors =>
      inner ← restore_iterator hst s;
      it ← instantiate codecs_iterator.new
             (codecs_iterator.__setstate__
                (inner, g, bytebuffer, charbuffer, linebuffer, errors));
      mret (Codecs it)
  end.

(** How a wrapper comes to be: through the dispatcher, or by the constructor
    of the decoded-stream iterator. *)
Inductive construction :=
| Dispatch (obj : value)
| Decode (f : value) (stream : generator).

Definition construct (hst : host) (c : construction) : M heap wrapper :=
  match c with
  | Dispatch obj => it ← iter_ hst obj; mret (Plain it)
  | Decode f stream =>
      it ← instantiate codecs_iterator.new (codecs_iterator.__init__ hst f stream);
      mret (Codecs it)
  end.

(** ** Examples *)

Module Examples.
Definition nl : byte := x0a.
Definition two_lines : list byte :=
  [x6c; x69; x6e; x65; x31; nl; x6c; x69; x6e; x65; x32; nl].

Definition host2 : host :=
  {| version := Python2; NUMPY_AVAILABLE := false;
     fs := {[ "data.txt"%string := two_lines ]}; gunzip := fun b => b |}.
Definition host3 : host :=
  {| version := Python3; NUMPY_AVAILABLE := false;
     fs := {[ "data.txt"%string := two_lines ]}; gunzip := fun b => b |}.

Definition a_list : heap := {[ 1%positive := OList [VInt 10; VInt 20; VInt 30] ]}.

(** An open file, read up to the end of its first line, and a gzip file. *)
Definition a_file : heap :=
  {[ 3%positive := OFile (fileobj.mk "data.txt" "r" two_lines 6) ]}.


(** The same file, just opened. *)
Definition a_new_file : heap :=
  {[ 3%positive := OFile (fileobj.mk "data.txt" "r" two_lines 0) ]}.

(** The same file, read to its end. *)
Definition a_file_at_end : heap :=
  {[ 3%positive := OFile (fileobj.mk "data.txt" "r" two_lines 12) ]}.

(** A decoder class that reads ahead: [readline] takes everything the handle
    still has into [bytebuffer] and returns the first line of the buffer,
    decoded byte by byte. *)
Fixpoint latin1 (bs : list byte) : string :=
  match bs with
  | [] => EmptyString
  | b :: bs' => String (Ascii.ascii_of_byte b) (latin1 bs')
  end.

Definition buffered_readline : decoder.method := fun a bytes =>
  let buffer := decoder.bytebuffer a ++ bytes in
  let line := first_line buffer in
  (Ok (latin1 line),
   decoder.mkattrs (drop (length line) buffer) (decoder.charbuffer a)
     (decoder.linebuffer a) (decoder.errors a),
   length bytes).

Definition StreamReader : generator :=
  getreader buffered_readline (decoder.mkattrs [] None None "strict").

Definition a_dict : heap :=
  {[ 2%positive := ODict [(VStr "a", VInt 1); (VStr "b", VInt 2)] ]}.

(** The two-line file as a byte stream, just opened for reading. *)
Definition a_binary_file : heap :=
  {[ 3%positive := OFile (fileobj.mk "data.txt" "rb" two_lines 0) ]}.

End Examples.

(** ** Predicates of the statements *)

(** [s] refers to a list, tuple or array of the store holding [xs]. *)
Definition sequence_at (h : heap) (s : value) (xs : list value) : Prop :=
  deref h s = Some (OList xs) \/ deref h s = Some (OTuple xs)
  \/ deref h s = Some (ONdarray xs).

(** What [n] calls of [next] return on a sequence of which [p] elements
    have been consumed: the elements that follow, then exhaustion. *)
Definition tail_results (xs : list value) (p n : nat) : list (result value) :=
  (Ok <$> take n (drop p xs)) ++ replicate (n - (length xs - p)) (Raise StopIteration).

(** The states of a sequence iterator that construction over [sequence]
    and calls of [next] lead to, in a store [h] that nothing else changes. *)
Inductive reachable (hst : host) (h : heap) (sequence : value)
  : ordered_sequence_iterator.t -> Prop :=
| reachable_init :
    reachable hst h sequence (ordered_sequence_iterator.__init__ sequence)
| reachable_next it r h' it' :
    reachable hst h sequence it ->
    ordered_sequence_iterator.__next__ hst (h, it) = (r, (h', it')) ->
    reachable hst h sequence it'.

(** A decoder factory that refuses every handle. *)
Definition failing_factory : generator := fun _ => raise UnicodeError.

(** The shapes [codecs_iterator] accepts: a plain open file or a gzip
    file. *)
Definition open_file_shape (h : heap) (f : value) : Prop :=
  (exists o, deref h f = Some (OFile o)) \/ (exists g, deref h f = Some (OGzipFile g)).

(** What a decoder's [readline] does at the end of its input: it returns
    the empty string (or raises [StopIteration] itself). *)
Definition signals_end (r : result string) : Prop :=
  r = Ok EmptyString \/ r = Raise StopIteration.

(** A decoder whose [readline], once it has signalled the end, keeps doing so
    without reading further and without changing its attributes. *)
Definition settles (readline : decoder.method) : Prop :=
  forall a bytes r a' n,
    readline a bytes = (r, a', n) -> signals_end r ->
    exists r', readline a' (drop n bytes) = (r', a', 0%nat) /\ signals_end r'.












Definition is_file (o : object) : Prop :=
  match o with
  | OFile _ | OGzipFile _ => True
  | _ => False
  end.

(** Whether the dispatcher wraps a sequence of the store in a sequence
    iterator: lists and tuples on Python 2, arrays on Python 2 when numpy is
    there; everything else goes to the host's [iter]. *)
Definition wraps_sequence (hst : host) (o : object) : bool :=
  match version hst, o with
  | Python2, OList _ | Python2, OTuple _ => true
  | Python2, ONdarray _ => NUMPY_AVAILABLE hst
  | _, _ => false
  end.

(** The lines of a byte string, as successive [readline] calls cut it. The
    fuel is the length of the string: every line of a string that is not
    empty takes at least one byte. *)
Fixpoint lines_fuel (fuel : nat) (bs : list byte) : list (list byte) :=
  match fuel with
  | O => []
  | S fuel' =>
      match bs with
      | [] => []
      | _ :: _ =>
          let line := first_line bs in
          line :: lines_fuel fuel' (drop (length line) bs)
      end
  end.

Definition lines (bs : list byte) : list (list byte) := lines_fuel (length bs) bs.

(** The bytes a file object has yet to deliver. *)
Definition remaining (o : object) : list byte :=
  match o with
  | OFile f => drop (fileobj.pos f) (fileobj.data f)
  | OGzipFile g => drop (GzipFile.offset g) (GzipFile.contents g)
  | _ => []
  end.

(** A byte stream opened for reading: a plain file opened with mode "rb",
    or a gzip file in read mode. *)
Definition reads_bytes (o : object) : Prop :=
  match o with
  | OFile f => fileobj.mode f = "rb"%string
  | OGzipFile g => GzipFile.mode g = GzipFile.READ
  | _ => False
  end.

(** The modes that open an existing resource for reading only. *)
Definition read_mode (mode : value) : Prop :=
  mode = VStr "r" \/ mode = VStr "rb".

(** A snapshot whose restore reopens its resource for reading only. *)
Definition reopens_for_reading (s : snapshot) : Prop :=
  match s with
  | FileState (_, _, mode) | GFileState (_, _, mode) => read_mode mode
  | SeqState _ | RangeState _ => True
  end.






(** The snapshot of the resource iterator in a state. *)
Definition inner_snapshot (st : state) : snapshot :=
  match st with
  | IteratorState s => s
  | CodecsState s _ _ _ _ _ => s
  end.

(** A file object moved [k] bytes further along its stream. *)
Definition forward (o : object) (k : nat) : object :=
  match o with
  | OFile f =>
      OFile (fileobj.mk (fileobj.name f) (fileobj.mode f) (fileobj.data f)
               (fileobj.pos f + k))
  | OGzipFile g =>
      OGzipFile (GzipFile.mk (GzipFile.name g) (GzipFile.mode g) (GzipFile.myfileobj g)
                   (GzipFile.contents g) (GzipFile.offset g + k))
  | _ => o
  end.

(** * Properties *)

(** ** Unfolding the state and exception passing *)

Ltac unfold_M :=
  unfold mbind, mret, M_bind, M_ret, raise, lift, get_self, set_self, getattr,
    on_self, instantiate, call in *; simpl in *.

Ltac step_M :=
  unfold mbind, mret, M_bind, M_ret, raise, lift, get_self, set_self, getattr,
    on_self, instantiate, call; cbn -[consume].

Lemma fresh_lookup (h : heap) : h !! fresh (dom h) = None.
Proof. apply not_elem_of_dom, is_fresh. Qed.

Lemma fresh_ne (h : heap) (l : loc) (o : object) :
  h !! l = Some o -> fresh (dom h) <> l.
Proof. intros Hl Heq. rewrite <- Heq, fresh_lookup in Hl. discriminate. Qed.

(** ** Sequences held in the store *)

Lemma sequence_at_ref h s xs :
  sequence_at h s xs -> exists l, s = Ref l.
Proof.
  intros [H | [H | H]]; destruct s; simpl in H; try discriminate; eauto.
Qed.

Lemma len_sequence hst h s xs :
  sequence_at h s xs -> len hst s h = (Ok (Z.of_nat (length xs)), h).
Proof.
  intros Hs. destruct (sequence_at_ref _ _ _ Hs) as [l ->].
  unfold len. destruct Hs as [H | [H | H]]; simpl in *; rewrite H; reflexivity.
Qed.

Lemma getitem_sequence hst h s xs i :
  sequence_at h s xs -> getitem hst s i h = (index xs i, h).
Proof.
  intros Hs. destruct (sequence_at_ref _ _ _ Hs) as [l ->].
  unfold getitem. destruct Hs as [H | [H | H]]; simpl in *; rewrite H; reflexivity.
Qed.

Lemma index_lookup (xs : list value) (n : nat) v :
  xs !! n = Some v -> index xs (Z.of_nat n) = Ok v.
Proof.
  intros Hv. pose proof (lookup_lt_Some _ _ _ Hv) as Hlt.
  unfold index.
  destruct (Z.ltb_spec (Z.of_nat n) 0) as [?|_]; [lia|].
  destruct (Z.leb_spec 0 (Z.of_nat n)) as [_|?]; [|lia].
  destruct (Z.ltb_spec (Z.of_nat n) (Z.of_nat (length xs))) as [_|?]; [|lia].
  simpl. rewrite Nat2Z.id, Hv. reflexivity.
Qed.

Lemma sequence_next_value hst h s xs (n : nat) v :
  sequence_at h s xs -> xs !! n = Some v ->
  ordered_sequence_iterator.__next__ hst (h, ordered_sequence_iterator.mk s (Z.of_nat n))
  = (Ok v, (h, ordered_sequence_iterator.mk s (Z.of_nat n + 1))).
Proof.
  intros Hs Hv. pose proof (lookup_lt_Some _ _ _ Hv) as Hlt.
  unfold ordered_sequence_iterator.__next__. unfold_M.
  rewrite (len_sequence hst h s xs Hs).
  destruct (Z.ltb_spec (Z.of_nat n) (Z.of_nat (length xs))) as [_|?]; [|lia].
  rewrite (getitem_sequence hst h s xs _ Hs), (index_lookup _ _ _ Hv).
  reflexivity.
Qed.

Lemma sequence_next_stop hst h s xs p :
  sequence_at h s xs -> Z.of_nat (length xs) <= p ->
  ordered_sequence_iterator.__next__ hst (h, ordered_sequence_iterator.mk s p)
  = (Raise StopIteration, (h, ordered_sequence_iterator.mk s p)).
Proof.
  intros Hs Hp.
  unfold ordered_sequence_iterator.__next__. unfold_M.
  rewrite (len_sequence hst h s xs Hs).
  destruct (Z.ltb_spec p (Z.of_nat (length xs))) as [?|_]; [lia|].
  reflexivity.
Qed.

Lemma consume_S hst n s :
  consume hst (S n) s
  = match next hst s with
    | (r, s') => match consume hst n s' with (rs, s'') => (r :: rs, s'') end
    end.
Proof. reflexivity. Qed.

Lemma consume_S_snd hst n s :
  (consume hst (S n) s).2 = (consume hst n (next hst s).2).2.
Proof.
  rewrite consume_S. destruct (next hst s) as [r s']. cbn [snd].
  destruct (consume hst n s') as [rs s'']. reflexivity.
Qed.

Lemma next_Seq hst h it :
  next hst (h, Plain (Seq it))
  = match ordered_sequence_iterator.__next__ hst (h, it) with
    | (r, (h', it')) => (r, (h', Plain (Seq it')))
    end.
Proof.
  unfold next; cbn [fst snd]; unfold on_self at 1; unfold next_iterator; cbn [fst snd]; unfold on_self; cbn [fst snd].
  destruct (ordered_sequence_iterator.__next__ hst (h, it)) as [r [h' it']].
  reflexivity.
Qed.

Lemma next_ListIter hst h it :
  next hst (h, Plain (ListIter it))
  = match listiterator.__next__ hst (h, it) with
    | (r, (h', it')) => (r, (h', Plain (ListIter it')))
    end.
Proof.
  unfold next; cbn [fst snd]; unfold on_self at 1; unfold next_iterator; cbn [fst snd]; unfold on_self; cbn [fst snd].
  destruct (listiterator.__next__ hst (h, it)) as [r [h' it']].
  reflexivity.
Qed.

Lemma tail_results_value xs p n v :
  xs !! p = Some v ->
  tail_results xs p (S n) = Ok v :: tail_results xs (S p) n.
Proof.
  intros Hv. pose proof (lookup_lt_Some _ _ _ Hv) as Hlt.
  unfold tail_results. rewrite (drop_S _ _ _ Hv). simpl.
  do 2 f_equal. f_equal. lia.
Qed.

Lemma tail_results_stop xs p n :
  (length xs <= p)%nat ->
  tail_results xs p (S n) = Raise StopIteration :: tail_results xs p n.
Proof.
  intros Hp. unfold tail_results. rewrite drop_ge by lia.
  rewrite !take_nil. simpl.
  replace (S n - (length xs - p))%nat with (S (n - (length xs - p))) by lia.
  reflexivity.
Qed.

Lemma consume_sequence hst h s xs :
  sequence_at h s xs ->
  forall n p, (p <= length xs)%nat ->
    consume hst n (h, Plain (Seq (ordered_sequence_iterator.mk s (Z.of_nat p))))
    = (tail_results xs p n,
       (h, Plain (Seq (ordered_sequence_iterator.mk s (Z.of_nat ((p + n) `min` length xs)))))).
Proof.
  intros Hs. induction n as [|n IH]; intros p Hp.
  - simpl. replace ((p + 0) `min` length xs)%nat with p by lia. reflexivity.
  - rewrite consume_S, next_Seq.
    destruct (xs !! p) as [v|] eqn:Hv.
    + pose proof (lookup_lt_Some _ _ _ Hv) as Hlt.
      rewrite (sequence_next_value hst h s xs p v Hs Hv).
      replace (Z.of_nat p + 1) with (Z.of_nat (S p)) by lia.
      rewrite (IH (S p)) by lia.
      rewrite (tail_results_value _ _ _ _ Hv).
      replace ((S p + n) `min` length xs)%nat with ((p + S n) `min` length xs)%nat by lia.
      reflexivity.
    + apply lookup_ge_None in Hv.
      rewrite (sequence_next_stop hst h s xs (Z.of_nat p) Hs) by lia.
      rewrite (IH p) by lia.
      rewrite (tail_results_stop _ _ _ Hv).
      replace ((p + S n) `min` length xs)%nat with ((p + n) `min` length xs)%nat by lia.
      reflexivity.
Qed.

(** The host's list iterator yields the same values. *)
Lemma consume_listiterator_done hst h i n :
  consume hst n (h, Plain (ListIter (listiterator.mk None i)))
  = (replicate n (Raise StopIteration), (h, Plain (ListIter (listiterator.mk None i)))).
Proof.
  induction n as [|n IH]; [reflexivity|].
  rewrite consume_S, next_ListIter. unfold listiterator.__next__. step_M.
  rewrite IH. reflexivity.
Qed.

Lemma consume_listiterator hst h s xs :
  sequence_at h s xs ->
  forall n p, (p <= length xs)%nat ->
    (consume hst n (h, Plain (ListIter (listiterator.mk (Some s) (Z.of_nat p))))).1
    = tail_results xs p n.
Proof.
  intros Hs. induction n as [|n IH]; intros p Hp; [reflexivity|].
  rewrite consume_S, next_ListIter. unfold listiterator.__next__.
  step_M. rewrite (len_sequence hst h s xs Hs).
  destruct (xs !! p) as [v|] eqn:Hv.
  - pose proof (lookup_lt_Some _ _ _ Hv) as Hlt.
    destruct (Z.ltb_spec (Z.of_nat p) (Z.of_nat (length xs))) as [_|?]; [|lia].
    rewrite (getitem_sequence hst h s xs _ Hs), (index_lookup _ _ _ Hv). simpl.
    replace (Z.of_nat p + 1) with (Z.of_nat (S p)) by lia.
    specialize (IH (S p) ltac:(lia)).
    destruct (consume hst n _) as [rs s'']. simpl in *.
    rewrite IH, (tail_results_value _ _ _ _ Hv). reflexivity.
  - apply lookup_ge_None in Hv.
    destruct (Z.ltb_spec (Z.of_nat p) (Z.of_nat (length xs))) as [?|_]; [lia|].
    simpl. rewrite consume_listiterator_done. simpl.
    rewrite (tail_results_stop _ _ _ Hv). f_equal.
    unfold tail_results. rewrite drop_ge by lia. rewrite take_nil. simpl.
    f_equal. lia.
Qed.

(** ** Dispatch of a list *)

Lemma iter__list hst h l xs :
  h !! l = Some (OList xs) ->
  iter_ hst (Ref l) h
  = (Ok (match version hst with
         | Python2 => Seq (ordered_sequence_iterator.mk (Ref l) 0)
         | Python3 => ListIter (listiterator.mk (Some (Ref l)) 0)
         end), h).
Proof.
  intros Hl. unfold iter_, iter, isinstance, instance_of, six.PY2, six.PY3.
  destruct (version hst); simpl; rewrite Hl; simpl; rewrite ?Hl; reflexivity.
Qed.

(** C3, as stated, fails on a Python 3 host: for the list [10, 20, 30] the
    dispatcher returns the host's own list iterator, not a sequence
    iterator. *)
Lemma list_dispatch_python3_is_native :
  exists it,
    iter_ Examples.host3 (Ref 1%positive) Examples.a_list
    = (Ok (ListIter it), Examples.a_list).
Proof. eexists. vm_compute. reflexivity. Qed.

(** C3 (amended): for the input list [10, 20, 30] the dispatcher returns a
    sequence iterator over the list itself on a Python 2 host and the host's
    list iterator on a Python 3 host; in both cases the iterator yields 10,
    20, 30 and signals exhaustion on the fourth call of [next]. *)
Theorem list_dispatch_yields_10_20_30 hst h l :
  h !! l = Some (OList [VInt 10; VInt 20; VInt 30]) ->
  exists it,
    iter_ hst (Ref l) h = (Ok it, h)
    /\ it = match version hst with
            | Python2 => Seq (ordered_sequence_iterator.__init__ (Ref l))
            | Python3 => ListIter (listiterator.mk (Some (Ref l)) 0)
            end
    /\ (consume hst 4 (h, Plain it)).1
       = [Ok (VInt 10); Ok (VInt 20); Ok (VInt 30); Raise StopIteration].
Proof.
  intros Hl. eexists. split; [apply (iter__list _ _ _ _ Hl)|].
  split; [reflexivity|].
  assert (Hs : sequence_at h (Ref l) [VInt 10; VInt 20; VInt 30]) by (left; exact Hl).
  destruct (version hst).
  - exact (f_equal fst (consume_sequence hst h _ _ Hs 4 0%nat ltac:(simpl; lia))).
  - exact (consume_listiterator hst h _ _ Hs 4 0%nat ltac:(simpl; lia)).
Qed.

Lemma list_dispatch_yields_10_20_30_witness :
  exists it,
    iter_ Examples.host2 (Ref 1%positive) Examples.a_list = (Ok it, Examples.a_list)
    /\ it = Seq (ordered_sequence_iterator.__init__ (Ref 1%positive))
    /\ (consume Examples.host2 4 (Examples.a_list, Plain it)).1
       = [Ok (VInt 10); Ok (VInt 20); Ok (VInt 30); Raise StopIteration].
Proof.
  apply (list_dispatch_yields_10_20_30 Examples.host2 Examples.a_list 1%positive).
  reflexivity.
Defined.

(** ** The sequence iterator *)

Lemma reachable_position hst h s xs it :
  sequence_at h s xs -> reachable hst h s it ->
  exists p : nat, (p <= length xs)%nat /\ it = ordered_sequence_iterator.mk s (Z.of_nat p).
Proof.
  intros Hs Hr. induction Hr as [|it r h' it' Hr IH Hnext].
  - exists 0%nat. split; [lia|reflexivity].
  - destruct IH as (p & Hp & ->).
    destruct (xs !! p) as [v|] eqn:Hv.
    + pose proof (lookup_lt_Some _ _ _ Hv) as Hlt.
      rewrite (sequence_next_value hst h s xs p v Hs Hv) in Hnext.
      injection Hnext as _ _ <-.
      exists (S p). split; [lia|]. f_equal. lia.
    + apply lookup_ge_None in Hv.
      rewrite (sequence_next_stop hst h s xs (Z.of_nat p) Hs) in Hnext by lia.
      injection Hnext as _ _ <-.
      exists p. split; [lia|reflexivity].
Qed.

(** C8: in every state of a sequence iterator reachable from construction
    by calls of [next], [0 <= position <= length(sequence)]; below the
    length [next] returns the element at [position] and adds one to
    [position], at the length it signals exhaustion and changes nothing; the
    iterator holds the very container it was given, and [next] leaves the
    store as it found it. *)
Theorem sequence_iterator_invariant hst h sequence xs it :
  sequence_at h sequence xs ->
  reachable hst h sequence it ->
  ordered_sequence_iterator._sequence it = sequence
  /\ 0 <= ordered_sequence_iterator._position it <= Z.of_nat (length xs)
  /\ (ordered_sequence_iterator._position it < Z.of_nat (length xs) ->
      exists v,
        xs !! Z.to_nat (ordered_sequence_iterator._position it) = Some v
        /\ ordered_sequence_iterator.__next__ hst (h, it)
           = (Ok v, (h, ordered_sequence_iterator.mk sequence
                          (ordered_sequence_iterator._position it + 1))))
  /\ (ordered_sequence_iterator._position it = Z.of_nat (length xs) ->
      ordered_sequence_iterator.__next__ hst (h, it) = (Raise StopIteration, (h, it)))
  /\ (forall r h' it',
        ordered_sequence_iterator.__next__ hst (h, it) = (r, (h', it')) ->
        h' = h
        /\ (r = Raise StopIteration <->
            ordered_sequence_iterator._position it = Z.of_nat (length xs))).
Proof.
  intros Hs Hr.
  destruct (reachable_position hst h sequence xs it Hs Hr) as (p & Hp & ->).
  cbn [ordered_sequence_iterator._sequence ordered_sequence_iterator._position].
  split; [reflexivity|]. split; [lia|].
  assert (Hlt : Z.of_nat p < Z.of_nat (length xs) ->
          exists v, xs !! p = Some v
            /\ ordered_sequence_iterator.__next__ hst
                 (h, ordered_sequence_iterator.mk sequence (Z.of_nat p))
               = (Ok v, (h, ordered_sequence_iterator.mk sequence (Z.of_nat p + 1)))).
  { intros Hlt. destruct (lookup_lt_is_Some_2 xs p ltac:(lia)) as [v Hv].
    exists v. split; [exact Hv|]. apply (sequence_next_value hst h _ xs p v Hs Hv). }
  assert (Hstop : Z.of_nat p = Z.of_nat (length xs) ->
          ordered_sequence_iterator.__next__ hst
            (h, ordered_sequence_iterator.mk sequence (Z.of_nat p))
          = (Raise StopIteration, (h, ordered_sequence_iterator.mk sequence (Z.of_nat p)))).
  { intros Heq. apply (sequence_next_stop hst h _ xs _ Hs). lia. }
  split; [|split; [exact Hstop|]].
  - intros Hp'. destruct (Hlt Hp') as (v & Hv & Hn). exists v.
    rewrite Nat2Z.id. split; assumption.
  - intros r h' it' Hnext.
    destruct (decide (p = length xs)) as [Heq|Hne].
    + rewrite Hstop in Hnext by lia. injection Hnext as <- <- <-.
      split; [reflexivity|]. split; [intros _; lia|reflexivity].
    + destruct (Hlt ltac:(lia)) as (v & Hv & Hn).
      rewrite Hn in Hnext. injection Hnext as <- <- <-.
      split; [reflexivity|]. split; [discriminate|lia].
Qed.

Lemma sequence_iterator_invariant_witness :
  let it := ordered_sequence_iterator.__init__ (Ref 1%positive) in
  let xs := [VInt 10; VInt 20; VInt 30] in
  ordered_sequence_iterator._sequence it = Ref 1%positive
  /\ 0 <= ordered_sequence_iterator._position it <= Z.of_nat (length xs)
  /\ (ordered_sequence_iterator._position it < Z.of_nat (length xs) ->
      exists v,
        xs !! Z.to_nat (ordered_sequence_iterator._position it) = Some v
        /\ ordered_sequence_iterator.__next__ Examples.host2 (Examples.a_list, it)
           = (Ok v, (Examples.a_list, ordered_sequence_iterator.mk (Ref 1%positive)
                          (ordered_sequence_iterator._position it + 1))))
  /\ (ordered_sequence_iterator._position it = Z.of_nat (length xs) ->
      ordered_sequence_iterator.__next__ Examples.host2 (Examples.a_list, it)
      = (Raise StopIteration, (Examples.a_list, it)))
  /\ (forall r h' it',
        ordered_sequence_iterator.__next__ Examples.host2 (Examples.a_list, it)
        = (r, (h', it')) ->
        h' = Examples.a_list
        /\ (r = Raise StopIteration <->
            ordered_sequence_iterator._position it = Z.of_nat (length xs))).
Proof.
  apply (sequence_iterator_invariant Examples.host2 Examples.a_list (Ref 1%positive)
           [VInt 10; VInt 20; VInt 30]).
  - left. reflexivity.
  - apply reachable_init.
Defined.

(** ** Dispatch of a dict *)

Lemma iter__dict hst h d items :
  h !! d = Some (ODict items) ->
  exists l h',
    iter_ hst (Ref d) h
    = (Ok (Seq (ordered_sequence_iterator.__init__ (Ref l))), h')
    /\ h !! l = None
    /\ h' !! l = Some (OList (fst <$> items))
    /\ (forall l0 o, h !! l0 = Some o -> h' !! l0 = Some o).
Proof.
  intros Hd. unfold iter_, isinstance, instance_of. cbn [existsb deref orb].
  rewrite Hd. cbn [orb]. unfold keys, list_. step_M. rewrite Hd.
  destruct (version hst).
  - (* Python 2: [keys()] is a list already, [list] copies it *)
    unfold alloc. cbn.
    set (l1 := fresh (dom h)).
    set (h1 := <[l1 := OList (fst <$> items)]> h).
    assert (Hh1 : h1 !! l1 = Some (OList (fst <$> items))) by apply lookup_insert_eq.
    rewrite Hh1. cbn.
    exists (fresh (dom h1)), (<[fresh (dom h1) := OList (fst <$> items)]> h1).
    split; [reflexivity|].
    assert (Hl2 : h1 !! fresh (dom h1) = None) by apply fresh_lookup.
    assert (Hfresh : forall x, h1 !! x = None -> h !! x = None /\ x <> l1).
    { intros x Hx. subst h1. destruct (decide (l1 = x)) as [->|Hn].
      - rewrite lookup_insert_eq in Hx. discriminate.
      - rewrite lookup_insert_ne in Hx by exact Hn. split; [exact Hx|congruence]. }
    destruct (Hfresh _ Hl2) as [Hnone Hne].
    split; [exact Hnone|]. split; [apply lookup_insert_eq|].
    intros l0 o Hl0.
    rewrite lookup_insert_ne by (intros Heq; rewrite Heq in Hnone; congruence).
    subst h1. rewrite lookup_insert_ne; [exact Hl0|].
    apply (fresh_ne h l0 o Hl0).
  - (* Python 3: [keys()] is a view, [list] materializes it *)
    cbn. rewrite Hd. unfold alloc. cbn.
    exists (fresh (dom h)), (<[fresh (dom h) := OList (fst <$> items)]> h).
    split; [reflexivity|]. split; [apply fresh_lookup|]. split.
    + apply lookup_insert_eq.
    + intros l0 o Hl0. rewrite lookup_insert_ne; [exact Hl0|].
      apply (fresh_ne h l0 o Hl0).
Qed.

(** C10: for a dict the dispatcher builds a new list of the keys and
    iterates over that list: whatever the dict holds afterwards (keys added
    or removed), the iterator yields the keys the dict had at dispatch time,
    in order. A list, by contrast, is held by reference (where Python 2 wraps
    it): the iterator yields what the list holds when [next] is called. *)
Theorem dict_keys_are_materialized hst h d items :
  h !! d = Some (ODict items) ->
  exists l h',
    iter_ hst (Ref d) h
    = (Ok (Seq (ordered_sequence_iterator.__init__ (Ref l))), h')
    /\ h !! l = None
    /\ h' !! l = Some (OList (fst <$> items))
    /\ (forall items' n,
          (consume hst n (<[d := ODict items']> h',
                          Plain (Seq (ordered_sequence_iterator.__init__ (Ref l))))).1
          = tail_results (fst <$> items) 0 n)
    /\ (forall l0 xs xs' n,
          version hst = Python2 -> h !! l0 = Some (OList xs) ->
          iter_ hst (Ref l0) h
          = (Ok (Seq (ordered_sequence_iterator.__init__ (Ref l0))), h)
          /\ (consume hst n (<[l0 := OList xs']> h,
                             Plain (Seq (ordered_sequence_iterator.__init__ (Ref l0))))).1
             = tail_results xs' 0 n).
Proof.
  intros Hd. destruct (iter__dict hst h d items Hd) as (l & h' & Hiter & Hnew & Hl & Hkeep).
  exists l, h'. split; [exact Hiter|]. split; [exact Hnew|]. split; [exact Hl|]. split.
  - intros items' n.
    assert (Hs : sequence_at (<[d := ODict items']> h') (Ref l) (fst <$> items)).
    { left. cbn. rewrite lookup_insert_ne by congruence. exact Hl. }
    exact (f_equal fst (consume_sequence hst _ _ _ Hs n 0%nat ltac:(lia))).
  - intros l0 xs xs' n Hpy Hl0. split.
    + rewrite (iter__list hst h l0 xs Hl0), Hpy. reflexivity.
    + assert (Hs : sequence_at (<[l0 := OList xs']> h) (Ref l0) xs').
      { left. cbn. apply lookup_insert_eq. }
      exact (f_equal fst (consume_sequence hst _ _ _ Hs n 0%nat ltac:(lia))).
Qed.

Lemma dict_keys_are_materialized_witness :
  exists l h',
    iter_ Examples.host3 (Ref 2%positive) Examples.a_dict
    = (Ok (Seq (ordered_sequence_iterator.__init__ (Ref l))), h')
    /\ Examples.a_dict !! l = None
    /\ h' !! l = Some (OList [VStr "a"; VStr "b"])
    /\ (forall items' n,
          (consume Examples.host3 n (<[2%positive := ODict items']> h',
                          Plain (Seq (ordered_sequence_iterator.__init__ (Ref l))))).1
          = tail_results [VStr "a"; VStr "b"] 0 n)
    /\ (forall l0 xs xs' n,
          version Examples.host3 = Python2 -> Examples.a_dict !! l0 = Some (OList xs) ->
          iter_ Examples.host3 (Ref l0) Examples.a_dict
          = (Ok (Seq (ordered_sequence_iterator.__init__ (Ref l0))), Examples.a_dict)
          /\ (consume Examples.host3 n (<[l0 := OList xs']> Examples.a_dict,
                             Plain (Seq (ordered_sequence_iterator.__init__ (Ref l0))))).1
             = tail_results xs' 0 n).
Proof.
  apply (dict_keys_are_materialized Examples.host3 Examples.a_dict 2%positive
           [(VStr "a", VInt 1); (VStr "b", VInt 2)]).
  reflexivity.
Defined.

(** ** The resource iterators: capture and restore *)

Lemma open_raises hst name mode h e h1 :
  open hst name mode h = (Raise e, h1) -> h1 = h.
Proof.
  unfold open, alloc, raise.
  destruct name, mode; try (intros [= _ <-]; reflexivity).
  destruct (fs hst !! s); intros [= ]; subst; reflexivity.
Qed.

Lemma gzip_open_raises hst name mode h e h1 :
  gzip.open hst name mode h = (Raise e, h1) -> h1 = h.
Proof.
  unfold gzip.open, alloc, raise.
  destruct name, mode; try (intros [= _ <-]; reflexivity).
  destruct (fs hst !! s); intros [= ]; subst; reflexivity.
Qed.






(** ** The compressed-resource iterator *)

Lemma iter__gzip hst h l g :
  h !! l = Some (OGzipFile g) ->
  iter_ hst (Ref l) h = (Ok (GFile (gfile_iterator.__init__ (Ref l))), h).
Proof.
  intros Hl. unfold iter_, isinstance, instance_of. cbn [existsb deref orb].
  rewrite Hl. reflexivity.
Qed.

Lemma iter__file hst h l o :
  h !! l = Some (OFile o) ->
  iter_ hst (Ref l) h = (Ok (File (file_iterator.__init__ (Ref l))), h).
Proof.
  intros Hl. unfold iter_, isinstance, instance_of, six.PY2. cbn [existsb deref orb].
  rewrite Hl. destruct (version hst); reflexivity.
Qed.



Lemma gfile_setstate_missing hst h self n p m :
  fs hst !! n = None ->
  gfile_iterator.__setstate__ hst (VStr n, p, VStr m) (h, self)
  = (Raise IOError, (h, self)).
Proof.
  intros Hn. unfold gfile_iterator.__setstate__, gzip.open. step_M.
  rewrite Hn. destruct self. reflexivity.
Qed.



(** ** Construction of the decoded-stream iterator *)

Lemma not_open_file_shape hst h f :
  ~ open_file_shape h f ->
  isinstance h f [ty.GzipFile; if six.PY2 hst then ty.file else ty.IOBase] = false.
Proof.
  intros Hn. unfold isinstance, instance_of, six.PY2. cbn [existsb].
  destruct (deref h f) as [o|] eqn:Hf.
  - destruct o;
      try (destruct (version hst); destruct f; reflexivity).
    + exfalso. apply Hn. left. eauto.
    + exfalso. apply Hn. right. eauto.
  - destruct (version hst); destruct f; reflexivity.
Qed.

(** C5: constructing a [codecs_iterator] over anything but an open file or
    a gzip file fails on the first statement of [__init__], with the
    [AssertionError] of the type check (a TypeInvariant error): no attribute
    of the new object has been assigned, the dispatcher has not been called,
    the store is untouched, and no iterator comes out. *)
Theorem codecs_iterator_rejects_non_file hst h f stream self :
  ~ open_file_shape h f ->
  codecs_iterator.__init__ hst f stream (h, self) = (Raise AssertionError, (h, self))
  /\ construct hst (Decode f stream) h = (Raise AssertionError, h)
  /\ classify AssertionError = TypeInvariant.
Proof.
  intros Hn. pose proof (not_open_file_shape hst h f Hn) as Hi.
  assert (Hinit : forall self0,
            codecs_iterator.__init__ hst f stream (h, self0)
            = (Raise AssertionError, (h, self0))).
  { intros self0. unfold codecs_iterator.__init__. cbn [fst]. rewrite Hi. reflexivity. }
  split; [apply Hinit|]. split; [|reflexivity].
  unfold construct, mbind, M_bind, instantiate. rewrite Hinit. reflexivity.
Qed.

Lemma codecs_iterator_rejects_non_file_witness :
  codecs_iterator.__init__ Examples.host3 (Ref 1%positive)
    (getreader (fun a _ => (Ok EmptyString, a, 0%nat))
       (decoder.mkattrs [] None None "strict"))
    (Examples.a_list, codecs_iterator.new)
  = (Raise AssertionError, (Examples.a_list, codecs_iterator.new))
  /\ construct Examples.host3
       (Decode (Ref 1%positive)
          (getreader (fun a _ => (Ok EmptyString, a, 0%nat))
             (decoder.mkattrs [] None None "strict")))
       Examples.a_list
     = (Raise AssertionError, Examples.a_list)
  /\ classify AssertionError = TypeInvariant.
Proof.
  apply (codecs_iterator_rejects_non_file Examples.host3 Examples.a_list (Ref 1%positive)).
  intros [[o Ho] | [g Hg]]; [vm_compute in Ho | vm_compute in Hg]; discriminate.
Defined.

(** ** Failing restores *)

(** C4, as stated, fails: when the decoder factory raises,
    [codecs_iterator.__setstate__] has already assigned [_file_iterator] and
    [_stream_generator] on the wrapper being restored. *)
Lemma codecs_restore_failure_is_visible :
  exists h' self',
    codecs_iterator.__setstate__
      (File (file_iterator.__init__ (Ref 3%positive)), failing_factory,
       [], None, None, "strict"%string)
      (Examples.a_file, codecs_iterator.new)
    = (Raise UnicodeError, (h', self'))
    /\ codecs_iterator._file_iterator self'
       = Some (File (file_iterator.__init__ (Ref 3%positive)))
    /\ codecs_iterator._file_iterator codecs_iterator.new = None
    /\ self' <> codecs_iterator.new.
Proof.
  eexists _, _. split; [vm_compute; reflexivity|].
  split; [reflexivity|]. split; [reflexivity|]. discriminate.
Qed.

Lemma codecs_setstate_raises st h self e h' self' :
  codecs_iterator.__setstate__ st (h, self) = (Raise e, (h', self')) ->
  self' = codecs_iterator.mk (Some st.1.1.1.1.1) (Some st.1.1.1.1.2)
            (codecs_iterator._stream self).
Proof.
  destruct st as [[[[[it g] bb] cb] lb] er]. cbn [fst snd].
  unfold codecs_iterator.__setstate__, codecs_iterator.call_stream_generator,
    codecs_iterator.set_file_iterator, codecs_iterator.set_stream_generator,
    codecs_iterator.set_stream_attrs, codecs_iterator.set_stream.
  step_M. destruct (iterator_f it) as [f|e0]; cbn.
  - destruct (g f h) as [[d|e1] h1]; cbn.
    + intros [=].
    + intros [= _ _ <-]. reflexivity.
  - intros [= _ _ <-]. reflexivity.
Qed.

(** C4 (amended): a restore that fails because the resource cannot be
    reopened is atomic: [__setstate__] of the resource iterator and of the
    compressed-resource iterator leave the wrapper and the store untouched
    when [open] or [gzip.open] raises. A restore that fails later is not:
    when [seek] refuses the offset the new handle is already assigned to
    [_f], and every failing [codecs_iterator.__setstate__] has replaced
    [_file_iterator] and [_stream_generator] by those of the state while
    [_stream] is still the previous decoder. *)
Theorem restore_failure_effects hst :
  (forall name pos mode h self e h1,
      open hst name mode h = (Raise e, h1) ->
      file_iterator.__setstate__ hst (name, pos, mode) (h, self) = (Raise e, (h, self)))
  /\ (forall name pos mode h self e h1,
        gzip.open hst name mode h = (Raise e, h1) ->
        gfile_iterator.__setstate__ hst (name, pos, mode) (h, self) = (Raise e, (h, self)))
  /\ (forall name pos mode bytes h self,
        fs hst !! name = Some bytes -> pos < 0 ->
        file_iterator.__setstate__ hst (VStr name, VInt pos, VStr mode) (h, self)
        = (Raise IOError,
           (<[fresh (dom h) := OFile (fileobj.mk name mode bytes 0)]> h,
            file_iterator.mk (Some (Ref (fresh (dom h)))))))
  /\ (forall st h self e h' self',
        codecs_iterator.__setstate__ st (h, self) = (Raise e, (h', self')) ->
        self' = codecs_iterator.mk (Some st.1.1.1.1.1) (Some st.1.1.1.1.2)
                  (codecs_iterator._stream self)).
Proof.
  split; [|split; [|split]].
  - intros name pos mode h self e h1 Hopen.
    pose proof (open_raises _ _ _ _ _ _ Hopen) as ->.
    unfold file_iterator.__setstate__. step_M. rewrite Hopen. destruct self. reflexivity.
  - intros name pos mode h self e h1 Hopen.
    pose proof (gzip_open_raises _ _ _ _ _ _ Hopen) as ->.
    unfold gfile_iterator.__setstate__. step_M. rewrite Hopen. destruct self. reflexivity.
  - intros name pos mode bytes h self Hn Hp.
    unfold file_iterator.__setstate__, open, seek, alloc. step_M.
    rewrite Hn. cbn. rewrite lookup_insert_eq.
    destruct (Z.ltb_spec pos 0) as [_|?]; [|lia]. reflexivity.
  - apply codecs_setstate_raises.
Qed.

(** ** Exhaustion *)

Lemma len_inv hst s h r h' :
  len hst s h = (r, h') -> h' = h /\ r <> Raise StopIteration.
Proof.
  unfold len. intros H. repeat case_match; simplify_eq; split; done.
Qed.

Lemma index_not_stop xs i : index xs i <> Raise StopIteration.
Proof. unfold index. repeat case_match; done. Qed.

Lemma getitem_inv hst s i h r h' :
  getitem hst s i h = (r, h') -> h' = h /\ r <> Raise StopIteration.
Proof.
  unfold getitem. intros H.
  repeat case_match; simplify_eq; split; try done; apply index_not_stop.
Qed.

Ltac destruct_len :=
  match goal with
  | |- context [len ?a ?b ?c] =>
      let H := fresh "Hlen" in
      destruct (len a b c) as [[?n|?e] ?h1] eqn:H;
      destruct (len_inv _ _ _ _ _ H) as [-> ?]; cbn
  end.

Ltac destruct_getitem :=
  match goal with
  | |- context [getitem ?a ?b ?c ?d] =>
      let H := fresh "Hget" in
      destruct (getitem a b c d) as [[?v|?e] ?h2] eqn:H;
      destruct (getitem_inv _ _ _ _ _ _ H) as [-> ?]; cbn
  end.

Lemma sequence_stop_fixed hst h it h' it' :
  ordered_sequence_iterator.__next__ hst (h, it) = (Raise StopIteration, (h', it')) ->
  h' = h /\ it' = it.
Proof.
  unfold ordered_sequence_iterator.__next__. step_M.
  destruct_len.
  - destruct (_ <? n).
    + destruct_getitem.
      * intros [=].
      * intros [= -> _ _]. done.
    + intros [= <- <-]. done.
  - intros [= -> _ _]. done.
Qed.

Lemma range_stop_fixed h it h' it' :
  range_iterator.__next__ (h, it) = (Raise StopIteration, (h', it')) ->
  h' = h /\ it' = it.
Proof.
  unfold range_iterator.__next__. step_M.
  destruct (_ || _); cbn; intros [=]; subst; done.
Qed.

Lemma valueiterator_stop_fixed h it h' it' :
  valueiterator.__next__ (h, it) = (Raise StopIteration, (h', it')) ->
  h' = h /\ it' = it.
Proof.
  unfold valueiterator.__next__. step_M.
  destruct (valueiterator.rest it); cbn; intros [=]; subst; done.
Qed.

Lemma listiterator_stop_again hst h it h' it' :
  listiterator.__next__ hst (h, it) = (Raise StopIteration, (h', it')) ->
  listiterator.__next__ hst (h', it') = (Raise StopIteration, (h', it')).
Proof.
  unfold listiterator.__next__ at 1. step_M.
  destruct (listiterator.it_seq it) as [s|] eqn:Hseq; cbn.
  - destruct_len.
    + destruct (_ <? n).
      * destruct_getitem.
        -- intros [=].
        -- intros [= -> _ _]. done.
      * intros [= <- <-]. reflexivity.
    + intros [= -> _ _]. done.
  - intros [= <- <-]. unfold listiterator.__next__. step_M. rewrite Hseq. reflexivity.
Qed.

Lemma first_line_nil bs : first_line bs = [] -> bs = [].
Proof. destruct bs as [|b bs]; [done|]. simpl. destruct (Byte.eqb b x0a); done. Qed.

Lemma is_empty_true {A} (l : list A) : is_empty l = true -> l = [].
Proof. destruct l; done. Qed.

(** Once [readline] has returned the empty line it returns it again and
    leaves the store as it is. *)
Lemma readline_empty f h h' :
  readline f h = (Ok [], h') -> readline f h' = (Ok [], h').
Proof.
  unfold readline. destruct f; try done. cbn [deref update].
  destruct (h !! l) as [[| | | |o|g|]|] eqn:Hl; try done.
  - intros [= Hline <-]. rewrite Hline. cbn [length].
    rewrite lookup_insert_eq. cbn [fileobj.pos fileobj.data fileobj.name fileobj.mode].
    rewrite Nat.add_0_r, Hline. cbn [length]. rewrite Nat.add_0_r, insert_insert_eq.
    reflexivity.
  - intros [= Hline <-]. rewrite Hline. cbn [length].
    rewrite lookup_insert_eq.
    cbn [GzipFile.offset GzipFile.contents GzipFile.name GzipFile.mode GzipFile.myfileobj].
    rewrite Nat.add_0_r, Hline. cbn [length]. rewrite Nat.add_0_r, insert_insert_eq.
    reflexivity.
Qed.

Lemma readline_not_stop f h r h' :
  readline f h = (r, h') -> r <> Raise StopIteration.
Proof. unfold readline. intros H. repeat case_match; simplify_eq; done. Qed.

Lemma file_stop_again h it h' it' :
  file_iterator.__next__ (h, it) = (Raise StopIteration, (h', it')) ->
  file_iterator.__next__ (h', it') = (Raise StopIteration, (h', it')).
Proof.
  unfold file_iterator.__next__ at 1. step_M.
  destruct (file_iterator._f it) as [f|] eqn:Hf; cbn; [|done].
  destruct (readline f h) as [[line|e] h1] eqn:Hread; cbn.
  - destruct (is_empty line) eqn:He; cbn; [|done].
    intros [= <- <-]. apply is_empty_true in He. subst line.
    unfold file_iterator.__next__. step_M. rewrite Hf. cbn.
    rewrite (readline_empty _ _ _ Hread). reflexivity.
  - intros [= -> _ _]. exfalso. eapply readline_not_stop; [exact Hread|reflexivity].
Qed.

Lemma drop_min {A} (n : nat) (l : list A) : drop (n `min` length l) l = drop n l.
Proof.
  destruct (Nat.le_gt_cases n (length l)) as [Hle|Hgt].
  - rewrite Nat.min_l by exact Hle. reflexivity.
  - rewrite Nat.min_r by lia. rewrite !drop_ge by lia. reflexivity.
Qed.

Lemma decoder_readline_again h d r h' d' :
  settles (decoder.readline_method d) ->
  decoder.readline (h, d) = (r, (h', d')) -> signals_end r ->
  exists r', decoder.readline (h', d') = (r', (h', d')) /\ signals_end r'.
Proof.
  intros Hset. unfold decoder.readline, unread, advance. cbn [fst snd].
  destruct d as [R f a]. cbn [decoder.stream decoder.readline_method decoder.attributes].
  cbn [decoder.readline_method] in Hset.
  destruct f; try (intros [= <- _ _] [?|?]; discriminate). cbn [deref update].
  destruct (h !! l) as [[| | | |o|g|]|] eqn:Hl;
    try (intros [= <- _ _] [?|?]; discriminate).
  - destruct (R a (drop (fileobj.pos o) (fileobj.data o))) as [[r0 a'] n] eqn:HR.
    rewrite Hl. cbn beta iota.
    intros [= -> <- <-] Hend.
    destruct (Hset _ _ _ _ _ HR Hend) as (r' & HR' & Hend').
    exists r'. split; [|exact Hend'].
    cbn [decoder.stream decoder.readline_method decoder.attributes deref].
    rewrite lookup_insert_eq. cbn [fileobj.pos fileobj.data fileobj.name fileobj.mode].
    rewrite <- drop_drop, drop_min, HR'. cbn [update].
    rewrite lookup_insert_eq. cbn beta iota.
    cbn [fileobj.pos fileobj.data fileobj.name fileobj.mode
         GzipFile.offset GzipFile.contents GzipFile.name GzipFile.mode GzipFile.myfileobj].
    rewrite insert_insert_eq. cbn [Nat.min]. rewrite Nat.add_0_r. reflexivity.
  - destruct (R a (drop (GzipFile.offset g) (GzipFile.contents g))) as [[r0 a'] n] eqn:HR.
    rewrite Hl. cbn beta iota.
    intros [= -> <- <-] Hend.
    destruct (Hset _ _ _ _ _ HR Hend) as (r' & HR' & Hend').
    exists r'. split; [|exact Hend'].
    cbn [decoder.stream decoder.readline_method decoder.attributes deref].
    rewrite lookup_insert_eq.
    cbn [GzipFile.offset GzipFile.contents GzipFile.name GzipFile.mode GzipFile.myfileobj].
    rewrite <- drop_drop, drop_min, HR'. cbn [update].
    rewrite lookup_insert_eq. cbn beta iota.
    cbn [fileobj.pos fileobj.data fileobj.name fileobj.mode
         GzipFile.offset GzipFile.contents GzipFile.name GzipFile.mode GzipFile.myfileobj].
    rewrite insert_insert_eq. cbn [Nat.min]. rewrite Nat.add_0_r. reflexivity.
Qed.

Lemma codecs_stop_again h it h' it' :
  (forall d, codecs_iterator._stream it = Some d -> settles (decoder.readline_method d)) ->
  codecs_iterator.__next__ (h, it) = (Raise StopIteration, (h', it')) ->
  codecs_iterator.__next__ (h', it') = (Raise StopIteration, (h', it')).
Proof.
  intros Hset. unfold codecs_iterator.__next__ at 1, codecs_iterator.stream_readline.
  step_M. destruct (codecs_iterator._stream it) as [d|] eqn:Hd; cbn; [|done].
  destruct (decoder.readline (h, d)) as [r [h1 d1]] eqn:Hread. cbn.
  assert (Hagain : signals_end r ->
            codecs_iterator.__next__
              (h1, codecs_iterator.mk (codecs_iterator._file_iterator it)
                     (codecs_iterator._stream_generator it) (Some d1))
            = (Raise StopIteration,
               (h1, codecs_iterator.mk (codecs_iterator._file_iterator it)
                      (codecs_iterator._stream_generator it) (Some d1)))).
  { intros Hend.
    destruct (decoder_readline_again h d r h1 d1 (Hset d eq_refl) Hread Hend)
      as (r' & Hread' & Hend').
    unfold codecs_iterator.__next__, codecs_iterator.stream_readline. step_M.
    rewrite Hread'. cbn. destruct Hend' as [-> | ->]; reflexivity. }
  destruct r as [line|e]; cbn.
  - case_bool_decide as Hline; cbn; [|done].
    intros [= <- <-]. apply Hagain. left. congruence.
  - intros [= -> <- <-]. apply Hagain. right. reflexivity.
Qed.

Lemma next_stop_again hst s s' :
  (forall c d, s.2 = Codecs c -> codecs_iterator._stream c = Some d ->
               settles (decoder.readline_method d)) ->
  next hst s = (Raise StopIteration, s') ->
  next hst s' = (Raise StopIteration, s').
Proof.
  destruct s as [h w]. cbn [snd]. intros Hset.
  destruct w as [[it|it|it|it|it|it]|c];
    unfold next, next_iterator; cbn [fst snd]; unfold on_self; cbn [fst snd].
  - destruct (ordered_sequence_iterator.__next__ hst (h, it)) as [r [h1 it1]] eqn:Hn.
    intros [= -> <-]. destruct (sequence_stop_fixed _ _ _ _ _ Hn) as [-> ->].
    cbn [fst snd]. rewrite Hn. reflexivity.
  - destruct (range_iterator.__next__ (h, it)) as [r [h1 it1]] eqn:Hn.
    intros [= -> <-]. destruct (range_stop_fixed _ _ _ _ Hn) as [-> ->].
    cbn [fst snd]. rewrite Hn. reflexivity.
  - destruct (file_iterator.__next__ (h, it)) as [r [h1 it1]] eqn:Hn.
    intros [= -> <-]. cbn [fst snd].
    rewrite (file_stop_again _ _ _ _ Hn). reflexivity.
  - change gfile_iterator.__next__ with file_iterator.__next__.
    unfold gfile_iterator.t in *.
    destruct (file_iterator.__next__ (h, it)) as [r [h1 it1]] eqn:Hn.
    intros [= -> <-]. cbn [fst snd].
    rewrite (file_stop_again _ _ _ _ Hn). reflexivity.
  - destruct (listiterator.__next__ hst (h, it)) as [r [h1 it1]] eqn:Hn.
    intros [= -> <-]. cbn [fst snd].
    rewrite (listiterator_stop_again _ _ _ _ _ Hn). reflexivity.
  - destruct (valueiterator.__next__ (h, it)) as [r [h1 it1]] eqn:Hn.
    intros [= -> <-]. destruct (valueiterator_stop_fixed _ _ _ _ Hn) as [-> ->].
    cbn [fst snd]. rewrite Hn. reflexivity.
  - destruct (codecs_iterator.__next__ (h, c)) as [r [h1 c1]] eqn:Hn.
    intros [= -> <-]. cbn [fst snd].
    rewrite (codecs_stop_again _ _ _ _ (fun d => Hset c d eq_refl) Hn). reflexivity.
Qed.

(** C9: once [next] has signalled exhaustion on a wrapper, every later call
    signals exhaustion again (it neither returns a value nor raises anything
    else) and leaves the wrapper and the store as they are. For the
    decoded-stream iterator, whose [next] is the decoder's [readline], this
    is under the condition that the decoder itself stays at the end of its
    input. *)
Theorem exhaustion_is_final hst s s' :
  (forall c d, s.2 = Codecs c -> codecs_iterator._stream c = Some d ->
               settles (decoder.readline_method d)) ->
  next hst s = (Raise StopIteration, s') ->
  forall n, consume hst n s' = (replicate n (Raise StopIteration), s').
Proof.
  intros Hset Hnext. pose proof (next_stop_again hst s s' Hset Hnext) as Hagain.
  induction n as [|n IH]; [reflexivity|].
  rewrite consume_S, Hagain, IH. reflexivity.
Qed.

Lemma latin1_nil bs : Examples.latin1 bs = EmptyString -> bs = [].
Proof. destruct bs; [reflexivity|discriminate]. Qed.

Lemma buffered_readline_settles : settles Examples.buffered_readline.
Proof.
  intros a bytes r a' n. unfold Examples.buffered_readline.
  intros [= <- <- <-] [Hend|Hend]; [|discriminate].
  injection Hend as Hline. apply latin1_nil, first_line_nil in Hline.
  apply app_eq_nil in Hline as [Ha ->]. rewrite Ha. cbn.
  exists (Ok EmptyString). split; [reflexivity|]. left. reflexivity.
Qed.

Lemma exhaustion_is_final_witness :
  let it := codecs_iterator.mk (Some (File (file_iterator.__init__ (Ref 3%positive))))
              (Some Examples.StreamReader)
              (Some (decoder.mk Examples.buffered_readline (Ref 3%positive)
                       (decoder.mkattrs [] None None "strict"))) in
  consume Examples.host3 3 (Examples.a_file_at_end, Codecs it)
  = (replicate 3 (Raise StopIteration), (Examples.a_file_at_end, Codecs it)).
Proof.
  intros it.
  apply (exhaustion_is_final Examples.host3
           (Examples.a_file_at_end, Codecs it) (Examples.a_file_at_end, Codecs it)).
  - intros c d [= <-] [= <-]. apply buffered_readline_settles.
  - vm_compute. reflexivity.
Defined.

(** ** Snapshots: capture, restore, and iteration after a restore *)























(** ** What iteration leaves of the modes of a file object *)























(** The round trip on the two-line file, evaluated: the first call of
    [next] returns the first line (the decoder has by then read the whole
    file into its buffer); the wrapper restored from the state captured at
    that point returns the second line and is then exhausted. *)
Example decoded_stream_resumes_at_second_line :
  exists w h0 st h1 w1 h2 w2,
    construct Examples.host3 (Decode (Ref 3%positive) Examples.StreamReader)
      Examples.a_new_file = (Ok w, h0)
    /\ consume Examples.host3 1 (h0, w)
       = ([Ok (VStr (Examples.latin1 [x6c; x69; x6e; x65; x31; x0a]))], (h1, w1))
    /\ capture_state w1 h1 = (Ok st, h1)
    /\ restore_state Examples.host3 st h1 = (Ok w2, h2)
    /\ (consume Examples.host3 2 (h2, w2)).1
       = [Ok (VStr (Examples.latin1 [x6c; x69; x6e; x65; x32; x0a]));
          Raise StopIteration].
Proof.
  eexists _, _, _, _, _, _, _.
  split; [vm_compute; reflexivity|].
  split; [vm_compute; reflexivity|].
  split; [vm_compute; reflexivity|].
  split; [vm_compute; reflexivity|].
  vm_compute. reflexivity.
Qed.




(** * Further properties of the module *)

(** ** The range iterator *)

Lemma range_len_nonneg start stop step : 0 <= range_len start stop step.
Proof.
  unfold range_len.
  destruct (Z.ltb_spec 0 step), (Z.ltb_spec start stop); cbn;
    try (apply Z.add_nonneg_nonneg; [apply Z.div_pos|]; lia);
    destruct (Z.ltb_spec step 0), (Z.ltb_spec stop start); cbn;
    try lia; apply Z.add_nonneg_nonneg; try lia; apply Z.div_pos; lia.
Qed.

Lemma range_len_step start stop step :
  0 < range_len start stop step -> step <> 0.
Proof.
  unfold range_len. intros Hlen ->. cbn in Hlen. lia.
Qed.

Lemma range_values_length start stop step :
  length (range_values start stop step) = Z.to_nat (range_len start stop step).
Proof. unfold range_values. rewrite length_fmap, length_seq. reflexivity. Qed.

Lemma range_values_lookup start stop step (i : nat) :
  (i < Z.to_nat (range_len start stop step))%nat ->
  range_values start stop step !! i = Some (VInt (start + step * Z.of_nat i)).
Proof.
  intros Hi. unfold range_values. rewrite list_lookup_fmap, lookup_seq_lt by exact Hi.
  reflexivity.
Qed.

Lemma next_Range hst h it :
  next hst (h, Plain (Range it))
  = match range_iterator.__next__ (h, it) with
    | (r, (h', it')) => (r, (h', Plain (Range it')))
    end.
Proof.
  unfold next; cbn [fst snd]; unfold on_self at 1; unfold next_iterator; cbn [fst snd];
    unfold on_self; cbn [fst snd].
  destruct (range_iterator.__next__ (h, it)) as [r [h' it']]. reflexivity.
Qed.

Lemma range_next_value h start stop step (i : nat) :
  (i < Z.to_nat (range_len start stop step))%nat ->
  range_iterator.__next__
    (h, range_iterator.mk start (start + range_len start stop step * step) step
          (start + step * Z.of_nat i))
  = (Ok (VInt (start + step * Z.of_nat i)),
     (h, range_iterator.mk start (start + range_len start stop step * step) step
           (start + step * Z.of_nat (S i)))).
Proof.
  intros Hi. pose proof (range_len_nonneg start stop step) as Hnn.
  assert (Hstep : step <> 0) by (apply (range_len_step start stop); lia).
  unfold range_iterator.__next__. step_M.
  set (len := range_len start stop step) in *.
  assert (Hlt : Z.of_nat i < len) by lia.
  replace (start + step * Z.of_nat i + step) with (start + step * Z.of_nat (S i)) by lia.
  destruct (Z.ltb_spec 0 step) as [Hpos|Hneg]; cbn.
  - destruct (Z.ltb_spec (start + step * Z.of_nat i) (start + len * step)) as [_|Hge];
      [reflexivity|nia].
  - destruct (Z.ltb_spec step 0) as [Hneg'|?]; [|lia]. cbn.
    destruct (Z.ltb_spec (start + len * step) (start + step * Z.of_nat i)) as [_|Hge];
      [reflexivity|nia].
Qed.

Lemma range_next_stop h start stop step :
  range_iterator.__next__
    (h, range_iterator.mk start (start + range_len start stop step * step) step
          (start + step * range_len start stop step))
  = (Raise StopIteration,
     (h, range_iterator.mk start (start + range_len start stop step * step) step
           (start + step * range_len start stop step))).
Proof.
  unfold range_iterator.__next__. step_M.
  set (len := range_len start stop step).
  replace (start + len * step) with (start + step * len) by lia.
  rewrite !Z.ltb_irrefl, !andb_false_r. reflexivity.
Qed.

Lemma consume_range hst h start stop step :
  forall n i, (i <= Z.to_nat (range_len start stop step))%nat ->
    consume hst n
      (h, Plain (Range (range_iterator.mk start
                          (start + range_len start stop step * step) step
                          (start + step * Z.of_nat i))))
    = (tail_results (range_values start stop step) i n,
       (h, Plain (Range (range_iterator.mk start
                           (start + range_len start stop step * step) step
                           (start + step
                            * Z.of_nat ((i + n) `min` Z.to_nat (range_len start stop step))))))).
Proof.
  pose proof (range_len_nonneg start stop step) as Hnn.
  induction n as [|n IH]; intros i Hi.
  - cbn [consume]. replace ((i + 0) `min` _)%nat with i by lia. reflexivity.
  - rewrite consume_S, next_Range.
    destruct (decide (i < Z.to_nat (range_len start stop step))%nat) as [Hlt|Hge].
    + rewrite (range_next_value h start stop step i Hlt), (IH (S i)) by lia.
      rewrite (tail_results_value _ _ _ _ (range_values_lookup _ _ _ _ Hlt)).
      replace ((S i + n) `min` _)%nat
        with ((i + S n) `min` Z.to_nat (range_len start stop step))%nat by lia.
      reflexivity.
    + assert (Hi' : Z.of_nat i = range_len start stop step) by lia.
      assert (Hstop : range_iterator.__next__
                (h, range_iterator.mk start (start + range_len start stop step * step)
                      step (start + step * Z.of_nat i))
              = (Raise StopIteration,
                 (h, range_iterator.mk start (start + range_len start stop step * step)
                       step (start + step * Z.of_nat i)))).
      { rewrite Hi'. apply range_next_stop. }
      rewrite Hstop, (IH i) by lia.
      rewrite tail_results_stop by (rewrite range_values_length; lia).
      replace ((i + S n) `min` _)%nat
        with ((i + n) `min` Z.to_nat (range_len start stop step))%nat by lia.
      reflexivity.
Qed.

(** X1: a [range_iterator] built from a range object yields [start],
    [start + step], ... : as many values as the range has elements (none
    when the range is empty or the step is 0), then exhaustion; it leaves the
    store alone and stops counting at the end of the range. *)
Theorem range_iterator_yields_range hst h start stop step n :
  exists it,
    range_iterator.__init__ (XRange start stop step) = Ok it
    /\ consume hst n (h, Plain (Range it))
       = (tail_results (range_values start stop step) 0 n,
          (h, Plain (Range (range_iterator.mk start
                              (start + range_len start stop step * step) step
                              (start + step
                               * Z.of_nat (n `min` Z.to_nat (range_len start stop step)))))))
    /\ length (range_values start stop step) = Z.to_nat (range_len start stop step)
    /\ (forall i : nat,
          (i < Z.to_nat (range_len start stop step))%nat ->
          range_values start stop step !! i = Some (VInt (start + step * Z.of_nat i))).
Proof.
  eexists. split; [reflexivity|]. split; [|split].
  - pose proof (consume_range hst h start stop step n 0%nat ltac:(lia)) as Hc.
    rewrite Z.mul_0_r, Z.add_0_r in Hc. exact Hc.
  - apply range_values_length.
  - apply range_values_lookup.
Qed.

(** ** Dispatch of ranges and sequences *)

Lemma next_ValueIter hst h it :
  next hst (h, Plain (ValueIter it))
  = match valueiterator.__next__ (h, it) with
    | (r, (h', it')) => (r, (h', Plain (ValueIter it')))
    end.
Proof.
  unfold next; cbn [fst snd]; unfold on_self at 1; unfold next_iterator; cbn [fst snd];
    unfold on_self; cbn [fst snd].
  destruct (valueiterator.__next__ (h, it)) as [r [h' it']]. reflexivity.
Qed.

Lemma consume_valueiterator hst h :
  forall n xs,
    (consume hst n (h, Plain (ValueIter (valueiterator.mk xs)))).1 = tail_results xs 0 n.
Proof.
  induction n as [|n IH]; intros xs; [reflexivity|].
  rewrite consume_S, next_ValueIter. unfold valueiterator.__next__. step_M.
  destruct xs as [|x xs]; cbn.
  - specialize (IH []). destruct (consume hst n _) as [rs s']. cbn [fst] in *.
    rewrite IH. unfold tail_results. cbn. rewrite !take_nil. cbn.
    rewrite Nat.sub_0_r. reflexivity.
  - specialize (IH xs). destruct (consume hst n _) as [rs s']. cbn [fst] in *.
    rewrite IH. unfold tail_results. cbn. rewrite !drop_0, Nat.sub_0_r. reflexivity.
Qed.

(** X2: the dispatcher gives a range object a [range_iterator] on Python 2
    and hands it to the host's [iter] on Python 3 (the test is under the
    Python 2 guard); either way the store is untouched and the iterator
    yields the elements of the range, then exhaustion. *)
Theorem range_dispatch hst h start stop step :
  exists it,
    iter_ hst (XRange start stop step) h = (Ok it, h)
    /\ it = match version hst with
            | Python2 =>
                Range (range_iterator.mk start
                         (start + range_len start stop step * step) step start)
            | Python3 => ValueIter (valueiterator.mk (range_values start stop step))
            end
    /\ forall n,
         (consume hst n (h, Plain it)).1 = tail_results (range_values start stop step) 0 n.
Proof.
  eexists. split; [|split; [reflexivity|]].
  - unfold iter_, iter, isinstance, instance_of, six.PY2, six.PY3.
    destruct (version hst); reflexivity.
  - intros n. destruct (version hst).
    + pose proof (consume_range hst h start stop step n 0%nat ltac:(lia)) as Hc.
      rewrite Z.mul_0_r, Z.add_0_r in Hc. rewrite Hc. reflexivity.
    + apply consume_valueiterator.
Qed.

Lemma iter__sequence hst h l o xs :
  h !! l = Some o ->
  o = OList xs \/ o = OTuple xs \/ o = ONdarray xs ->
  iter_ hst (Ref l) h
  = (Ok (if wraps_sequence hst o
         then Seq (ordered_sequence_iterator.__init__ (Ref l))
         else ListIter (listiterator.mk (Some (Ref l)) 0)), h).
Proof.
  intros Hl Ho.
  unfold iter_, iter, isinstance, instance_of, six.PY2, six.PY3, wraps_sequence.
  cbn [existsb deref orb].
  destruct Ho as [-> | [-> | ->]]; rewrite Hl;
    destruct (version hst), (NUMPY_AVAILABLE hst); cbn; rewrite ?Hl; reflexivity.
Qed.

(** X3: for a list, tuple or array of the store the dispatcher allocates
    nothing and returns an iterator that holds the sequence itself: a
    sequence iterator where the module wraps the type (Python 2; arrays only
    with numpy), the host's list iterator otherwise; on every host the
    iterator yields the elements of the sequence in order, then
    exhaustion. *)
Theorem sequence_dispatch_yields_elements hst h l o xs :
  h !! l = Some o ->
  o = OList xs \/ o = OTuple xs \/ o = ONdarray xs ->
  exists it,
    iter_ hst (Ref l) h = (Ok it, h)
    /\ it = (if wraps_sequence hst o
             then Seq (ordered_sequence_iterator.__init__ (Ref l))
             else ListIter (listiterator.mk (Some (Ref l)) 0))
    /\ forall n, (consume hst n (h, Plain it)).1 = tail_results xs 0 n.
Proof.
  intros Hl Ho. eexists. split; [apply (iter__sequence hst h l o xs Hl Ho)|].
  split; [reflexivity|]. intros n.
  assert (Hs : sequence_at h (Ref l) xs).
  { unfold sequence_at. cbn. rewrite Hl. destruct Ho as [-> | [-> | ->]]; auto. }
  destruct (wraps_sequence hst o).
  - exact (f_equal fst (consume_sequence hst h _ _ Hs n 0%nat ltac:(lia))).
  - exact (consume_listiterator hst h _ _ Hs n 0%nat ltac:(lia)).
Qed.

Lemma sequence_dispatch_yields_elements_witness :
  exists it,
    iter_ Examples.host2 (Ref 1%positive) Examples.a_list = (Ok it, Examples.a_list)
    /\ it = Seq (ordered_sequence_iterator.__init__ (Ref 1%positive))
    /\ forall n,
         (consume Examples.host2 n (Examples.a_list, Plain it)).1
         = tail_results [VInt 10; VInt 20; VInt 30] 0 n.
Proof.
  apply (sequence_dispatch_yields_elements Examples.host2 Examples.a_list 1%positive
           (OList [VInt 10; VInt 20; VInt 30]) [VInt 10; VInt 20; VInt 30]).
  - reflexivity.
  - left. reflexivity.
Defined.

(** ** The lines a resource iterator yields *)

Lemma first_line_cons_nonempty b bs : first_line (b :: bs) <> [].
Proof. simpl. destruct (Byte.eqb b x0a); discriminate. Qed.

Lemma first_line_prefix bs : first_line bs ++ drop (length (first_line bs)) bs = bs.
Proof.
  induction bs as [|b bs IH]; [reflexivity|]. simpl.
  destruct (Byte.eqb b x0a); simpl; [rewrite drop_0; reflexivity|].
  rewrite IH. reflexivity.
Qed.

Lemma first_line_idempotent bs : first_line (first_line bs) = first_line bs.
Proof.
  induction bs as [|b bs IH]; [reflexivity|]. simpl.
  destruct (Byte.eqb b x0a) eqn:Hb; simpl; rewrite Hb; [reflexivity|].
  rewrite IH. reflexivity.
Qed.

Lemma lines_fuel_enough fuel :
  forall fuel' bs, (length bs <= fuel)%nat -> (length bs <= fuel')%nat ->
    lines_fuel fuel bs = lines_fuel fuel' bs.
Proof.
  induction fuel as [|fuel IH]; intros fuel' bs Hf Hf'.
  - destruct bs; [|simpl in Hf; lia]. destruct fuel'; reflexivity.
  - destruct bs as [|b bs]; [destruct fuel'; reflexivity|].
    destruct fuel' as [|fuel']; [simpl in Hf'; lia|].
    cbn [lines_fuel]. f_equal.
    pose proof (first_line_cons_nonempty b bs) as Hne.
    assert (Hlen : (0 < length (first_line (b :: bs)))%nat).
    { destruct (first_line (b :: bs)); [done|simpl; lia]. }
    remember (first_line (b :: bs)) as line.
    apply IH; rewrite length_drop; cbn [length] in *; lia.
Qed.

Lemma lines_cons b bs :
  lines (b :: bs)
  = first_line (b :: bs) :: lines (drop (length (first_line (b :: bs))) (b :: bs)).
Proof.
  unfold lines. cbn [length lines_fuel]. f_equal.
  pose proof (first_line_cons_nonempty b bs) as Hne.
  assert (Hlen : (0 < length (first_line (b :: bs)))%nat).
  { destruct (first_line (b :: bs)); [done|simpl; lia]. }
  remember (first_line (b :: bs)) as line.
  apply lines_fuel_enough; rewrite ?length_drop; cbn [length]; lia.
Qed.

Lemma lines_properties bs :
  concat (lines bs) = bs
  /\ Forall (fun line => line <> [] /\ first_line line = line) (lines bs).
Proof.
  remember (length bs) as n eqn:Hn. revert bs Hn.
  induction n as [n IH] using lt_wf_ind. intros bs Hn.
  destruct bs as [|b bs]; [split; [reflexivity|constructor]|].
  rewrite lines_cons.
  pose proof (first_line_cons_nonempty b bs) as Hne.
  assert (Hlen : (0 < length (first_line (b :: bs)))%nat).
  { destruct (first_line (b :: bs)); [done|simpl; lia]. }
  destruct (IH (length (drop (length (first_line (b :: bs))) (b :: bs)))
              ltac:(subst n; rewrite length_drop; cbn [length]; lia) _ eq_refl)
    as [Hcat Hall].
  split.
  - cbn [concat]. rewrite Hcat. apply first_line_prefix.
  - constructor; [|exact Hall]. split; [exact Hne|apply first_line_idempotent].
Qed.

Lemma tail_results_cons x xs n :
  tail_results (x :: xs) 0 (S n) = Ok x :: tail_results xs 0 n.
Proof.
  unfold tail_results. cbn. rewrite !drop_0, Nat.sub_0_r. reflexivity.
Qed.

Lemma tail_results_nil n :
  tail_results [] 0 (S n) = Raise StopIteration :: tail_results [] 0 n.
Proof. apply tail_results_stop. simpl. lia. Qed.

Lemma readline_file h l o :
  h !! l = Some o -> is_file o ->
  exists o',
    readline (Ref l) h = (Ok (first_line (remaining o)), <[l := o']> h)
    /\ is_file o'
    /\ remaining o' = drop (length (first_line (remaining o))) (remaining o).
Proof.
  intros Hl Hfile. unfold readline. cbn [deref update]. rewrite Hl.
  destruct o as [| | | |a|a|]; try done;
    eexists; (split; [reflexivity|]); (split; [exact I|]);
    cbn; rewrite drop_drop; reflexivity.
Qed.

Lemma next_File hst h it :
  next hst (h, Plain (File it))
  = match file_iterator.__next__ (h, it) with
    | (r, (h', it')) => (r, (h', Plain (File it')))
    end.
Proof.
  unfold next; cbn [fst snd]; unfold on_self at 1; unfold next_iterator; cbn [fst snd];
    unfold on_self; cbn [fst snd].
  destruct (file_iterator.__next__ (h, it)) as [r [h' it']]. reflexivity.
Qed.

Lemma next_GFile hst h it :
  next hst (h, Plain (GFile it))
  = match file_iterator.__next__ (h, it) with
    | (r, (h', it')) => (r, (h', Plain (GFile it')))
    end.
Proof.
  unfold next; cbn [fst snd]; unfold on_self at 1; unfold next_iterator; cbn [fst snd];
    unfold on_self; cbn [fst snd].
  change gfile_iterator.__next__ with file_iterator.__next__.
  unfold gfile_iterator.t in *.
  destruct (file_iterator.__next__ (h, it)) as [r [h' it']]. reflexivity.
Qed.

Lemma file_next_line h l o :
  h !! l = Some o -> is_file o ->
  exists o',
    file_iterator.__next__ (h, file_iterator.mk (Some (Ref l)))
    = (match lines (remaining o) with
       | [] => Raise StopIteration
       | line :: _ => Ok (VBytes line)
       end, (<[l := o']> h, file_iterator.mk (Some (Ref l))))
    /\ is_file o'
    /\ lines (remaining o') = tail (lines (remaining o)).
Proof.
  intros Hl Hfile.
  destruct (readline_file h l o Hl Hfile) as (o' & Hread & Hfile' & Hrem).
  exists o'. split; [|split; [exact Hfile'|]].
  - unfold file_iterator.__next__. step_M. rewrite Hread. cbn.
    destruct (remaining o) as [|b bs] eqn:Hbs; [reflexivity|].
    rewrite lines_cons.
    destruct (first_line (b :: bs)) eqn:Hline;
      [exfalso; apply (first_line_cons_nonempty b bs Hline)|]. reflexivity.
  - rewrite Hrem. destruct (remaining o) as [|b bs]; [reflexivity|].
    rewrite lines_cons. reflexivity.
Qed.

Lemma consume_file hst (wrap : file_iterator.t -> iterator) l :
  (forall h it, next hst (h, Plain (wrap it))
                = match file_iterator.__next__ (h, it) with
                  | (r, (h', it')) => (r, (h', Plain (wrap it')))
                  end) ->
  forall n h o,
    h !! l = Some o -> is_file o ->
    (consume hst n (h, Plain (wrap (file_iterator.mk (Some (Ref l)))))).1
    = tail_results (VBytes <$> lines (remaining o)) 0 n.
Proof.
  intros Hnext. induction n as [|n IH]; intros h o Hl Hfile; [reflexivity|].
  rewrite consume_S, Hnext.
  destruct (file_next_line h l o Hl Hfile) as (o' & Hn & Hfile' & Hlines).
  rewrite Hn.
  specialize (IH (<[l := o']> h) o' (lookup_insert_eq h l o') Hfile').
  destruct (consume hst n _) as [rs s']. cbn [fst] in *. rewrite IH, Hlines.
  destruct (lines (remaining o)) as [|line rest]; cbn [tail fmap list_fmap].
  - rewrite tail_results_nil. reflexivity.
  - rewrite tail_results_cons. reflexivity.
Qed.

Lemma reads_bytes_is_file o : reads_bytes o -> is_file o.
Proof. destruct o; done. Qed.

(** X4: a resource iterator (plain or gzip) over a byte stream opened for
    reading (mode "rb", or a gzip file in read mode) yields the unread part
    of the stream line by line, each line cut after its newline byte, then
    exhaustion: no line is empty, each is a single line with its terminator
    left in place, and the lines put end to end are exactly the bytes that
    were unread. *)
Theorem file_iterator_yields_lines hst h l o n :
  h !! l = Some o -> reads_bytes o ->
  (consume hst n (h, Plain (File (file_iterator.__init__ (Ref l))))).1
  = tail_results (VBytes <$> lines (remaining o)) 0 n
  /\ (consume hst n (h, Plain (GFile (gfile_iterator.__init__ (Ref l))))).1
     = tail_results (VBytes <$> lines (remaining o)) 0 n
  /\ concat (lines (remaining o)) = remaining o
  /\ Forall (fun line => line <> [] /\ first_line line = line) (lines (remaining o)).
Proof.
  intros Hl Hbytes. pose proof (reads_bytes_is_file o Hbytes) as Hfile.
  split; [|split].
  - apply (consume_file hst File l (next_File hst) n h o Hl Hfile).
  - apply (consume_file hst GFile l (next_GFile hst) n h o Hl Hfile).
  - apply lines_properties.
Qed.

Lemma file_iterator_yields_lines_witness :
  (consume Examples.host3 3
     (Examples.a_binary_file, Plain (File (file_iterator.__init__ (Ref 3%positive))))).1
  = tail_results (VBytes <$> lines Examples.two_lines) 0 3
  /\ (consume Examples.host3 3
        (Examples.a_binary_file,
         Plain (GFile (gfile_iterator.__init__ (Ref 3%positive))))).1
     = tail_results (VBytes <$> lines Examples.two_lines) 0 3
  /\ concat (lines Examples.two_lines) = Examples.two_lines
  /\ Forall (fun line => line <> [] /\ first_line line = line) (lines Examples.two_lines).
Proof.
  apply (file_iterator_yields_lines Examples.host3 Examples.a_binary_file 3%positive
           (OFile (fileobj.mk "data.txt" "rb" Examples.two_lines 0))).
  - reflexivity.
  - reflexivity.
Defined.

(** ** Dispatch of dict views, failures of the dispatcher, and the store *)

(** X5: on Python 3 the dispatcher copies a dict view (keys, values or
    items) into a new list and iterates over the copy: nothing that was in
    the store is touched, and whatever the dict holds afterwards the iterator
    yields what the view showed at dispatch time, in order. *)
Theorem view_dispatch_materializes hst h k d items :
  version hst = Python3 ->
  h !! d = Some (ODict items) ->
  exists l,
    iter_ hst (DictView k d) h
    = (Ok (Seq (ordered_sequence_iterator.__init__ (Ref l))),
       <[l := OList (view_values k items)]> h)
    /\ h !! l = None
    /\ forall items' n,
         (consume hst n (<[d := ODict items']> (<[l := OList (view_values k items)]> h),
                         Plain (Seq (ordered_sequence_iterator.__init__ (Ref l))))).1
         = tail_results (view_values k items) 0 n.
Proof.
  intros Hpy Hd. exists (fresh (dom h)). split; [|split; [apply fresh_lookup|]].
  - unfold iter_, isinstance, instance_of, six.PY2, six.PY3. rewrite Hpy.
    destruct k; cbn; unfold list_, elements_of, alloc, mbind, M_bind, mret, M_ret;
      rewrite Hd; reflexivity.
  - intros items' n.
    assert (Hs : sequence_at (<[d := ODict items']> (<[fresh (dom h) := OList (view_values k items)]> h))
                   (Ref (fresh (dom h))) (view_values k items)).
    { left. cbn. rewrite lookup_insert_ne by (intros ->; apply (fresh_ne h _ _ Hd); reflexivity).
      apply lookup_insert_eq. }
    exact (f_equal fst (consume_sequence hst _ _ _ Hs n 0%nat ltac:(lia))).
Qed.

Lemma view_dispatch_materializes_witness :
  exists l,
    iter_ Examples.host3 (DictView dict_values 2%positive) Examples.a_dict
    = (Ok (Seq (ordered_sequence_iterator.__init__ (Ref l))),
       <[l := OList [VInt 1; VInt 2]]> Examples.a_dict)
    /\ Examples.a_dict !! l = None
    /\ forall items' n,
         (consume Examples.host3 n
            (<[2%positive := ODict items']> (<[l := OList [VInt 1; VInt 2]]> Examples.a_dict),
             Plain (Seq (ordered_sequence_iterator.__init__ (Ref l))))).1
         = tail_results [VInt 1; VInt 2] 0 n.
Proof.
  apply (view_dispatch_materializes Examples.host3 Examples.a_dict dict_values 2%positive
           [(VStr "a", VInt 1); (VStr "b", VInt 2)]).
  - reflexivity.
  - reflexivity.
Defined.

Lemma open_file_shape_dec h obj :
  open_file_shape h obj
  \/ (~ open_file_shape h obj
      /\ forall c, c = ty.GzipFile \/ c = ty.file \/ c = ty.IOBase ->
                   instance_of h obj c = false).
Proof.
  unfold open_file_shape, instance_of.
  destruct (deref h obj) as [o|] eqn:Hf; [destruct o|]; eauto;
    right; (split; [intros [[? ?]|[? ?]]; discriminate|]);
    intros c [-> | [-> | ->]]; destruct obj; reflexivity.
Qed.

Lemma alloc_preserves (h : heap) (o : object) l o0 :
  h !! l = Some o0 -> <[fresh (dom h) := o]> h !! l = Some o0.
Proof.
  intros Hl. rewrite lookup_insert_ne; [exact Hl|]. apply (fresh_ne h l o0 Hl).
Qed.

(** X6: the dispatcher fails in one way only: with the [TypeError] of the
    host's [iter], for an object that is neither a file nor iterable, and
    then the store is as it was; for every other object it returns an
    iterator. *)
Theorem dispatch_fails_only_on_non_iterables hst obj h :
  (elements_of hst h obj = None -> ~ open_file_shape h obj ->
   iter_ hst obj h = (Raise TypeError, h))
  /\ (forall e h',
        iter_ hst obj h = (Raise e, h') ->
        e = TypeError /\ h' = h
        /\ elements_of hst h obj = None /\ ~ open_file_shape h obj).
Proof.
  destruct (open_file_shape_dec h obj) as [Hshape | [Hshape Hinst]].
  - split; [intros _ Hn; contradiction|].
    intros e h' Hiter.
    destruct Hshape as [[o Ho] | [g Hg]]; destruct obj; try discriminate; cbn in *.
    + rewrite (iter__file hst h l o Ho) in Hiter. discriminate.
    + rewrite (iter__gzip hst h l g Hg) in Hiter. discriminate.
  - assert (Hiter : iter_ hst obj h
                    = match elements_of hst h obj with
                      | None => (Raise TypeError, h)
                      | Some xs => ((iter_ hst obj h).1, (iter_ hst obj h).2)
                      end
                    /\ (is_Some (elements_of hst h obj) ->
                        exists it, (iter_ hst obj h).1 = Ok it)).
    { pose proof (Hinst ty.GzipFile ltac:(auto)) as Hgz.
      pose proof (Hinst ty.file ltac:(auto)) as Hfile.
      pose proof (Hinst ty.IOBase ltac:(auto)) as Hio.
      unfold iter_, iter, isinstance, six.PY2, six.PY3.
      replace (existsb (instance_of h obj)
                 (if match version hst with Python2 => true | Python3 => false end
                  then [ty.file] else [ty.IOBase])) with false
        by (destruct (version hst); cbn [existsb]; rewrite ?Hfile, ?Hio; reflexivity).
      cbn [existsb]. rewrite Hgz. clear Hgz Hfile Hio Hinst.
      unfold instance_of, keys, list_, alloc, mbind, M_bind, mret, M_ret,
        range_iterator.__init__, range_iterator.reduce_args.
      destruct obj as [| | | | |l| |k d]; cbn;
        try (destruct k);
        repeat match goal with
               | |- context [h !! ?l0] => destruct (h !! l0) as [[]|] eqn:?
               end;
        destruct (version hst), (NUMPY_AVAILABLE hst); cbn;
        repeat match goal with
               | H : h !! _ = _ |- _ => rewrite H; cbn
               end;
        rewrite ?lookup_insert_eq; cbn;
        (split; [reflexivity
                |first [intros [? ?]; discriminate | intros _; eexists; reflexivity]]). }
    destruct Hiter as [Heq Hok]. split.
    + intros Hnone _. rewrite Heq, Hnone. reflexivity.
    + intros e h' Hraise.
      destruct (elements_of hst h obj) as [xs|] eqn:Hel.
      * destruct (Hok ltac:(eauto)) as [it Hit]. rewrite Hraise in Hit. discriminate.
      * rewrite Heq in Hraise. injection Hraise as <- <-. auto.
Qed.

Lemma dispatch_fails_only_on_non_iterables_witness :
  iter_ Examples.host3 (VInt 5) Examples.a_list = (Raise TypeError, Examples.a_list).
Proof.
  apply (proj1 (dispatch_fails_only_on_non_iterables Examples.host3 (VInt 5) Examples.a_list)).
  - reflexivity.
  - intros [[o Ho] | [g Hg]]; discriminate.
Defined.

Ltac solve_frame :=
  first [ reflexivity
        | apply insert_subseteq, fresh_lookup
        | etrans; [apply insert_subseteq, fresh_lookup | apply insert_subseteq, fresh_lookup] ].

(** X7: the dispatcher never changes an object of the store: it does not
    read from a file it is given, nor move its position, and it mutates no
    container. It allocates only for a dict and, on Python 3, for a dict
    view, and what it allocates are lists holding the elements of the
    argument. *)
Theorem dispatch_preserves_store hst obj h r h' :
  iter_ hst obj h = (r, h') ->
  h ⊆ h'
  /\ (h' = h
      \/ (exists d items, obj = Ref d /\ h !! d = Some (ODict items))
      \/ (version hst = Python3 /\ exists k d, obj = DictView k d))
  /\ (forall l o,
        h' !! l = Some o -> h !! l = None ->
        exists xs, o = OList xs /\ elements_of hst h obj = Some xs).
Proof.
  unfold iter_, iter, isinstance, six.PY2, six.PY3, instance_of, keys, list_, alloc,
    mbind, M_bind, mret, M_ret, range_iterator.__init__, range_iterator.reduce_args.
  destruct obj as [| | | | |l| |k d]; cbn;
    try (destruct k);
    repeat match goal with
           | |- context [h !! ?l0] => destruct (h !! l0) as [[]|] eqn:?
           end;
    destruct (version hst), (NUMPY_AVAILABLE hst); cbn;
    repeat match goal with
           | H : h !! _ = _ |- _ => rewrite H; cbn
           end;
    rewrite ?lookup_insert_eq; cbn;
    intros [= <- <-];
    (split; [solve_frame|]);
    (split; [first [left; reflexivity | right; left; solve [eauto] | right; right; solve [eauto]]|]);
    intros l0 o Hl0 Hnone;
    repeat match goal with
           | H : <[_ := _]> _ !! _ = Some _ |- _ =>
               apply lookup_insert_Some in H as [[<- <-] | [? H]]
           end;
    try congruence; eauto.
Qed.

Lemma dispatch_preserves_store_witness :
  Examples.a_new_file ⊆ Examples.a_new_file
  /\ (Examples.a_new_file = Examples.a_new_file
      \/ (exists d items, Ref 3%positive = Ref d
                          /\ Examples.a_new_file !! d = Some (ODict items))
      \/ (version Examples.host3 = Python3 /\ exists k d, Ref 3%positive = DictView k d))
  /\ (forall l o,
        Examples.a_new_file !! l = Some o -> Examples.a_new_file !! l = None ->
        exists xs, o = OList xs
                   /\ elements_of Examples.host3 Examples.a_new_file (Ref 3%positive) = Some xs).
Proof.
  apply (dispatch_preserves_store Examples.host3 (Ref 3%positive) Examples.a_new_file
           (Ok (File (file_iterator.__init__ (Ref 3%positive))))).
  reflexivity.
Defined.

(** ** Construction of the decoded-stream iterator over a file *)

Lemma open_file_shape_isinstance hst h f :
  open_file_shape h f ->
  isinstance h f [ty.GzipFile; if six.PY2 hst then ty.file else ty.IOBase] = true.
Proof.
  unfold isinstance, instance_of, six.PY2. cbn [existsb].
  intros [[o Ho] | [g Hg]].
  - rewrite Ho. destruct (version hst); reflexivity.
  - rewrite Hg. reflexivity.
Qed.

Lemma open_file_shape_dispatch hst h f :
  open_file_shape h f ->
  exists it,
    iter_ hst f h = (Ok it, h) /\ is_file_iterator it = true /\ iterator_f it = Ok f.
Proof.
  intros [[o Ho] | [g Hg]]; destruct f; try discriminate; cbn in *.
  - eexists. split; [apply (iter__file hst h l o Ho)|]. split; reflexivity.
  - eexists. split; [apply (iter__gzip hst h l g Hg)|]. split; reflexivity.
Qed.

(** X8: over an open file or a gzip file the constructor of the
    decoded-stream iterator passes both of its type checks (the second can
    never fail once the first has passed: the dispatcher gives every such
    object a resource iterator), touches the store only through the decoder
    factory, and hands the factory the very handle the inner iterator holds.
    The new iterator holds the inner iterator, the factory and the decoder;
    an exception of the factory comes out of the constructor as it is. *)
Theorem codecs_iterator_construction hst h f stream :
  open_file_shape h f ->
  exists it,
    iter_ hst f h = (Ok it, h)
    /\ is_file_iterator it = true
    /\ iterator_f it = Ok f
    /\ construct hst (Decode f stream) h
       = match stream f h with
         | (Ok d, h') =>
             (Ok (Codecs (codecs_iterator.mk (Some it) (Some stream) (Some d))), h')
         | (Raise e, h') => (Raise e, h')
         end.
Proof.
  intros Hshape.
  destruct (open_file_shape_dispatch hst h f Hshape) as (it & Hiter & Hfile & Hf).
  exists it. split; [exact Hiter|]. split; [exact Hfile|]. split; [exact Hf|].
  unfold construct, mbind, M_bind, instantiate, codecs_iterator.__init__.
  cbn [fst snd]. rewrite (open_file_shape_isinstance hst h f Hshape).
  cbn [negb]. unfold mbind, M_bind, lift. cbn [fst snd]. rewrite Hiter.
  unfold codecs_iterator.call_stream_generator, codecs_iterator.set_file_iterator,
    codecs_iterator.set_stream_generator, codecs_iterator.set_stream, getattr, raise,
    mbind, M_bind, mret, M_ret, lift.
  cbn [fst snd codecs_iterator._file_iterator codecs_iterator._stream_generator
       codecs_iterator._stream codecs_iterator.new].
  rewrite Hfile. cbn [negb fst snd codecs_iterator._file_iterator
                      codecs_iterator._stream_generator codecs_iterator._stream].
  rewrite Hf. cbn [fst snd].
  destruct (stream f h) as [[d|e] h']; reflexivity.
Qed.

Lemma codecs_iterator_construction_witness :
  exists it,
    iter_ Examples.host3 (Ref 3%positive) Examples.a_new_file = (Ok it, Examples.a_new_file)
    /\ is_file_iterator it = true
    /\ iterator_f it = Ok (Ref 3%positive)
    /\ construct Examples.host3 (Decode (Ref 3%positive) Examples.StreamReader)
         Examples.a_new_file
       = match Examples.StreamReader (Ref 3%positive) Examples.a_new_file with
         | (Ok d, h') =>
             (Ok (Codecs (codecs_iterator.mk (Some it) (Some Examples.StreamReader) (Some d))),
              h')
         | (Raise e, h') => (Raise e, h')
         end.
Proof.
  apply (codecs_iterator_construction Examples.host3 Examples.a_new_file (Ref 3%positive)
           Examples.StreamReader).
  left. eexists. reflexivity.
Defined.

(** ** What capturing and restoring do to the store *)

Lemma file_getstate_store h it :
  (file_iterator.__getstate__ (h, it)).2 = (h, it).
Proof.
  destruct it as [[f|]]; [|reflexivity].
  unfold file_iterator.__getstate__, attr_name, tell, attr_mode. step_M.
  destruct (deref h f) as [[]|] eqn:Hf; cbn; rewrite ?Hf; cbn; rewrite ?Hf; reflexivity.
Qed.

Lemma gfile_getstate_store h it :
  (gfile_iterator.__getstate__ (h, it)).2 = (h, it).
Proof.
  destruct it as [[f|]]; [|reflexivity].
  unfold gfile_iterator.__getstate__, attr_name, tell, attr_myfileobj_mode. step_M.
  destruct (deref h f) as [[| | | | |g|]|] eqn:Hf; cbn; rewrite ?Hf; cbn; rewrite ?Hf;
    try reflexivity.
  destruct (GzipFile.myfileobj g); reflexivity.
Qed.

Lemma codecs_getstate_store h it :
  (codecs_iterator.__getstate__ (h, it)).2 = (h, it).
Proof.
  unfold codecs_iterator.__getstate__. step_M.
  destruct it as [[inner|] [g|] [d|]]; reflexivity.
Qed.

Lemma capture_iterator_store it h : (capture_iterator it h).2 = h.
Proof.
  destruct it as [it|it|it|it|it|it]; try reflexivity; unfold capture_iterator.
  - pose proof (file_getstate_store h it) as Hs. step_M.
    destruct (file_iterator.__getstate__ (h, it)) as [[st|e] [h' it']];
      cbn in Hs; injection Hs as -> _; reflexivity.
  - pose proof (gfile_getstate_store h it) as Hs. step_M.
    destruct (gfile_iterator.__getstate__ (h, it)) as [[st|e] [h' it']];
      cbn in Hs; injection Hs as -> _; reflexivity.
Qed.

(** X9: capturing the state of an iterator changes nothing: the state hooks
    of the resource iterators and of the decoded-stream iterator only read
    (name, position, mode, buffers), so that neither the store, with the
    position of every file in it, nor the iterator is any different after a
    capture, whether the capture succeeds or raises. *)
Theorem capture_has_no_effect w h :
  (capture_state w h).2 = h
  /\ (forall it : file_iterator.t,
        (file_iterator.__getstate__ (h, it)).2 = (h, it)
        /\ (gfile_iterator.__getstate__ (h, it)).2 = (h, it))
  /\ (forall it, (codecs_iterator.__getstate__ (h, it)).2 = (h, it)).
Proof.
  split; [|split].
  - destruct w as [it|it]; unfold capture_state.
    + pose proof (capture_iterator_store it h) as Hs. step_M.
      destruct (capture_iterator it h) as [[s|e] h']; cbn in Hs; subst h'; reflexivity.
    + pose proof (codecs_getstate_store h it) as Hs. step_M.
      destruct (codecs_iterator.__getstate__ (h, it))
        as [[[[[[[inner g] bb] cb] lb] er]|e] [h' it']];
        cbn in Hs; injection Hs as -> _; [|reflexivity].
      pose proof (capture_iterator_store inner h) as Hs.
      destruct (capture_iterator inner h) as [[s|e] h']; cbn in Hs; subst h'; reflexivity.
  - intros it. split; [apply file_getstate_store|apply gfile_getstate_store].
  - apply codecs_getstate_store.
Qed.

Lemma file_setstate_frame hst st h self :
  h ⊆ (file_iterator.__setstate__ hst st (h, self)).2.1.
Proof.
  destruct st as [[name pos] mode].
  unfold file_iterator.__setstate__, open, seek, alloc. step_M.
  destruct name as [| |n| | | | |]; try reflexivity;
    destruct mode as [| |m| | | | |]; try reflexivity.
  step_M. destruct (fs hst !! n) as [bytes|]; [|reflexivity].
  cbn. rewrite lookup_insert_eq.
  destruct pos as [|z| | | | | |]; cbn; try solve_frame.
  destruct (z <? 0); cbn; [solve_frame|].
  rewrite insert_insert_eq. solve_frame.
Qed.

Lemma gfile_setstate_frame hst st h self :
  h ⊆ (gfile_iterator.__setstate__ hst st (h, self)).2.1.
Proof.
  destruct st as [[name pos] mode].
  unfold gfile_iterator.__setstate__, gzip.open, seek, alloc. step_M.
  destruct name as [| |n| | | | |]; try reflexivity;
    destruct mode as [| |m| | | | |]; try reflexivity.
  step_M. destruct (fs hst !! n) as [bytes|]; [|reflexivity].
  cbn. rewrite lookup_insert_eq.
  destruct pos as [|z| | | | | |]; cbn; try solve_frame.
  rewrite insert_insert_eq. solve_frame.
Qed.

Lemma instantiate_frame {T} (new : T) (m : M (heap * T) ()) (h : heap) :
  h ⊆ (m (h, new)).2.1 -> h ⊆ (instantiate new m h).2.
Proof.
  unfold instantiate. destruct (m (h, new)) as [[[]|e] [h' self]]; intros Hs; exact Hs.
Qed.

Lemma bind_ret_frame {A B} (m : M heap A) (f : A -> B) (h : heap) :
  h ⊆ (m h).2 -> h ⊆ ((x ← m; mret (f x)) h).2.
Proof.
  unfold mbind, M_bind, mret, M_ret. destruct (m h) as [[a|e] h']; intros Hs; exact Hs.
Qed.

Lemma restore_iterator_frame hst s h : h ⊆ (restore_iterator hst s h).2.
Proof.
  destruct s as [st|st|st|st]; try reflexivity; unfold restore_iterator.
  - apply bind_ret_frame, instantiate_frame, file_setstate_frame.
  - apply bind_ret_frame, instantiate_frame, gfile_setstate_frame.
Qed.

Lemma codecs_setstate_frame st h self :
  (forall f h0, h0 ⊆ (st.1.1.1.1.2 f h0).2) ->
  h ⊆ (codecs_iterator.__setstate__ st (h, self)).2.1.
Proof.
  destruct st as [[[[[it g] bb] cb] lb] er]. cbn [fst snd]. intros Hg.
  unfold codecs_iterator.__setstate__, codecs_iterator.call_stream_generator,
    codecs_iterator.set_file_iterator, codecs_iterator.set_stream_generator,
    codecs_iterator.set_stream_attrs, codecs_iterator.set_stream.
  step_M. destruct (iterator_f it) as [f|e0]; cbn; [|reflexivity].
  specialize (Hg f h). destruct (g f h) as [[d|e1] h1]; exact Hg.
Qed.

(** X10: restoring a state that names a read mode ("r" or "rb", so that
    reopening the resource neither creates nor truncates it) only allocates:
    every object of the store is after the restore what it was before it,
    whether the restore succeeds or raises. The new iterator reads through a
    handle of its own, and the iterator the state was captured from keeps its
    handle and its position. (For a decoded stream, provided the decoder
    factory itself only allocates.) *)
Theorem restore_only_allocates hst st h :
  reopens_for_reading (inner_snapshot st) ->
  match st with
  | IteratorState _ => True
  | CodecsState _ g _ _ _ _ => forall f h0, h0 ⊆ (g f h0).2
  end ->
  h ⊆ (restore_state hst st h).2
  /\ forall l o, h !! l = Some o -> (restore_state hst st h).2 !! l = Some o.
Proof.
  intros Hmode Hg.
  assert (Hsub : h ⊆ (restore_state hst st h).2).
  { destruct st as [s|s g bb cb lb er]; unfold restore_state.
    - apply bind_ret_frame, restore_iterator_frame.
    - pose proof (restore_iterator_frame hst s h) as Hs.
      unfold mbind, M_bind at 1.
      destruct (restore_iterator hst s h) as [[inner|e] h1]; [|exact Hs].
      cbn [snd] in Hs. etrans; [exact Hs|].
      apply bind_ret_frame, instantiate_frame.
      apply (codecs_setstate_frame (inner, g, bb, cb, lb, er) h1 codecs_iterator.new Hg). }
  split; [exact Hsub|].
  intros l o Hl. exact (lookup_weaken _ _ _ _ Hl Hsub).
Qed.

Lemma restore_only_allocates_witness :
  Examples.a_file
  ⊆ (restore_state Examples.host3
       (CodecsState (FileState (VStr "data.txt", VInt 6, VStr "rb")) Examples.StreamReader
          [] None None "strict") Examples.a_file).2
  /\ forall l o,
       Examples.a_file !! l = Some o ->
       (restore_state Examples.host3
          (CodecsState (FileState (VStr "data.txt", VInt 6, VStr "rb")) Examples.StreamReader
             [] None None "strict") Examples.a_file).2 !! l = Some o.
Proof.
  apply (restore_only_allocates Examples.host3
           (CodecsState (FileState (VStr "data.txt", VInt 6, VStr "rb")) Examples.StreamReader
              [] None None "strict") Examples.a_file).
  - right. reflexivity.
  - intros f h0. reflexivity.
Defined.

(** ** The position a capture records *)

Lemma forward_0 o : forward o 0 = o.
Proof. destruct o as [| | | |[]|[]|]; cbn; rewrite ?Nat.add_0_r; reflexivity. Qed.

Lemma forward_forward o a b : forward (forward o a) b = forward o (a + b).
Proof. destruct o; cbn; rewrite ?Nat.add_assoc; reflexivity. Qed.

Lemma is_file_forward o k : is_file o -> is_file (forward o k).
Proof. destruct o; auto. Qed.

Lemma remaining_forward o k : remaining (forward o k) = drop k (remaining o).
Proof. destruct o; cbn; rewrite ?drop_drop, ?drop_nil; reflexivity. Qed.

Lemma readline_forward h l o :
  h !! l = Some o -> is_file o ->
  readline (Ref l) h
  = (Ok (first_line (remaining o)),
     <[l := forward o (length (first_line (remaining o)))]> h).
Proof.
  intros Hl Hfile. unfold readline. cbn [deref update]. rewrite Hl.
  destruct o; try done.
Qed.

Lemma file_next_forward h l o :
  h !! l = Some o -> is_file o ->
  (file_iterator.__next__ (h, file_iterator.mk (Some (Ref l)))).2
  = (<[l := forward o (length (first_line (remaining o)))]> h,
     file_iterator.mk (Some (Ref l))).
Proof.
  intros Hl Hfile. unfold file_iterator.__next__. step_M.
  rewrite (readline_forward h l o Hl Hfile). cbn.
  destruct (first_line (remaining o)); reflexivity.
Qed.

Lemma lines_take_length bs n :
  length (concat (take (S n) (lines bs)))
  = (length (first_line bs)
     + length (concat (take n (lines (drop (length (first_line bs)) bs)))))%nat.
Proof.
  destruct bs as [|b bs]; [cbn; rewrite take_nil; reflexivity|].
  rewrite lines_cons. cbn [take concat]. rewrite length_app. reflexivity.
Qed.

Lemma consume_file_store hst (wrap : file_iterator.t -> iterator) l :
  (forall h it, next hst (h, Plain (wrap it))
                = match file_iterator.__next__ (h, it) with
                  | (r, (h', it')) => (r, (h', Plain (wrap it')))
                  end) ->
  forall n h o,
    h !! l = Some o -> is_file o ->
    (consume hst n (h, Plain (wrap (file_iterator.mk (Some (Ref l)))))).2
    = (<[l := forward o (length (concat (take n (lines (remaining o)))))]> h,
       Plain (wrap (file_iterator.mk (Some (Ref l))))).
Proof.
  intros Hnext. induction n as [|n IH]; intros h o Hl Hfile.
  - cbn. rewrite forward_0, insert_id by exact Hl. reflexivity.
  - rewrite consume_S_snd, Hnext.
    pose proof (file_next_forward h l o Hl Hfile) as Hn.
    destruct (file_iterator.__next__ (h, file_iterator.mk (Some (Ref l))))
      as [r [h1 it1]]. cbn [snd] in *. injection Hn as -> ->.
    rewrite (IH _ _ (lookup_insert_eq h l _) (is_file_forward _ _ Hfile)).
    rewrite insert_insert_eq, forward_forward, remaining_forward, lines_take_length.
    reflexivity.
Qed.

Lemma file_getstate_forward h l o k name p mode :
  h !! l = Some o ->
  file_iterator.__getstate__ (h, file_iterator.__init__ (Ref l))
  = (Ok (name, VInt p, mode), (h, file_iterator.__init__ (Ref l))) ->
  file_iterator.__getstate__ (<[l := forward o k]> h, file_iterator.__init__ (Ref l))
  = (Ok (name, VInt (p + Z.of_nat k), mode),
     (<[l := forward o k]> h, file_iterator.__init__ (Ref l))).
Proof.
  intros Hl. unfold file_iterator.__getstate__, attr_name, tell, attr_mode. step_M.
  rewrite !lookup_insert_eq, Hl.
  destruct o; cbn; rewrite ?lookup_insert_eq, ?Hl; cbn; rewrite ?lookup_insert_eq, ?Hl;
    try discriminate; intros [= <- <- <-]; rewrite Nat2Z.inj_add; reflexivity.
Qed.

Lemma gfile_getstate_forward h l o k name p mode :
  h !! l = Some o ->
  gfile_iterator.__getstate__ (h, gfile_iterator.__init__ (Ref l))
  = (Ok (name, VInt p, mode), (h, gfile_iterator.__init__ (Ref l))) ->
  gfile_iterator.__getstate__ (<[l := forward o k]> h, gfile_iterator.__init__ (Ref l))
  = (Ok (name, VInt (p + Z.of_nat k), mode),
     (<[l := forward o k]> h, gfile_iterator.__init__ (Ref l))).
Proof.
  intros Hl. unfold gfile_iterator.__getstate__, attr_name, tell, attr_myfileobj_mode.
  step_M. rewrite !lookup_insert_eq, Hl.
  destruct o as [| | | | |g|]; cbn; rewrite ?lookup_insert_eq, ?Hl; cbn;
    rewrite ?lookup_insert_eq, ?Hl; try discriminate.
  cbn. destruct (GzipFile.myfileobj g); [|discriminate].
  intros [= <- <- <-]. rewrite Nat2Z.inj_add. reflexivity.
Qed.

(** X11: over a byte stream opened for reading (mode "rb", or a gzip file in
    read mode) the position in a captured state counts the bytes yielded so
    far. After [n] calls of [next] a resource iterator (plain or gzip) still
    holds the handle it was given, the handle has moved by the total length
    of the lines yielded and is otherwise the same, and nothing else in the
    store has changed; a capture that would have given (name, p, mode) before
    the calls gives (name, p + that length, mode) after them. *)
Theorem captured_position_counts_bytes hst h l o n :
  h !! l = Some o -> reads_bytes o ->
  (consume hst n (h, Plain (File (file_iterator.__init__ (Ref l))))).2
  = (<[l := forward o (length (concat (take n (lines (remaining o)))))]> h,
     Plain (File (file_iterator.__init__ (Ref l))))
  /\ (consume hst n (h, Plain (GFile (gfile_iterator.__init__ (Ref l))))).2
     = (<[l := forward o (length (concat (take n (lines (remaining o)))))]> h,
        Plain (GFile (gfile_iterator.__init__ (Ref l))))
  /\ (forall name p mode,
        file_iterator.__getstate__ (h, file_iterator.__init__ (Ref l))
        = (Ok (name, VInt p, mode), (h, file_iterator.__init__ (Ref l))) ->
        capture_state (Plain (File (file_iterator.__init__ (Ref l))))
          (consume hst n (h, Plain (File (file_iterator.__init__ (Ref l))))).2.1
        = (Ok (IteratorState
                 (FileState
                    (name,
                     VInt (p + Z.of_nat (length (concat (take n (lines (remaining o)))))),
                     mode))),
           (consume hst n (h, Plain (File (file_iterator.__init__ (Ref l))))).2.1))
  /\ (forall name p mode,
        gfile_iterator.__getstate__ (h, gfile_iterator.__init__ (Ref l))
        = (Ok (name, VInt p, mode), (h, gfile_iterator.__init__ (Ref l))) ->
        capture_state (Plain (GFile (gfile_iterator.__init__ (Ref l))))
          (consume hst n (h, Plain (GFile (gfile_iterator.__init__ (Ref l))))).2.1
        = (Ok (IteratorState
                 (GFileState
                    (name,
                     VInt (p + Z.of_nat (length (concat (take n (lines (remaining o)))))),
                     mode))),
           (consume hst n (h, Plain (GFile (gfile_iterator.__init__ (Ref l))))).2.1)).
Proof.
  intros Hl Hbytes. pose proof (reads_bytes_is_file o Hbytes) as Hfile.
  pose proof (consume_file_store hst File l (next_File hst) n h o Hl Hfile) as HF.
  pose proof (consume_file_store hst GFile l (next_GFile hst) n h o Hl Hfile) as HG.
  split; [exact HF|]. split; [exact HG|]. split.
  - intros name p mode Hget.
    change (file_iterator.mk (Some (Ref l))) with (file_iterator.__init__ (Ref l)) in HF.
    rewrite HF. cbn [fst snd].
    unfold capture_state, capture_iterator, call, mbind, M_bind, mret, M_ret.
    rewrite (file_getstate_forward h l o _ name p mode Hl Hget). reflexivity.
  - intros name p mode Hget.
    change (file_iterator.mk (Some (Ref l))) with (gfile_iterator.__init__ (Ref l)) in HG.
    rewrite HG. cbn [fst snd].
    unfold capture_state, capture_iterator, call, mbind, M_bind, mret, M_ret.
    rewrite (gfile_getstate_forward h l o _ name p mode Hl Hget). reflexivity.
Qed.

Lemma captured_position_counts_bytes_witness :
  capture_state (Plain (File (file_iterator.__init__ (Ref 3%positive))))
    (consume Examples.host3 1
       (Examples.a_binary_file,
        Plain (File (file_iterator.__init__ (Ref 3%positive))))).2.1
  = (Ok (IteratorState (FileState (VStr "data.txt", VInt 6, VStr "rb"))),
     (consume Examples.host3 1
        (Examples.a_binary_file,
         Plain (File (file_iterator.__init__ (Ref 3%positive))))).2.1).
Proof.
  apply (proj1 (proj2 (proj2
           (captured_position_counts_bytes Examples.host3 Examples.a_binary_file 3%positive
              (OFile (fileobj.mk "data.txt" "rb" Examples.two_lines 0)) 1 eq_refl eq_refl)))
           (VStr "data.txt") 0 (VStr "rb")).
  reflexivity.
Defined.

(** ** The dispatcher and the host's [iter] *)

Lemma consume_seq_elements hst h s xs :
  len hst s h = (Ok (Z.of_nat (length xs)), h) ->
  (forall i, getitem hst s i h = (index xs i, h)) ->
  forall n p, (p <= length xs)%nat ->
    (consume hst n (h, Plain (Seq (ordered_sequence_iterator.mk s (Z.of_nat p))))).1
    = tail_results xs p n.
Proof.
  intros Hlen Hget. induction n as [|n IH]; intros p Hp; [reflexivity|].
  rewrite consume_S, next_Seq. unfold ordered_sequence_iterator.__next__.
  step_M. rewrite Hlen.
  destruct (xs !! p) as [v|] eqn:Hv.
  - pose proof (lookup_lt_Some _ _ _ Hv) as Hlt.
    destruct (Z.ltb_spec (Z.of_nat p) (Z.of_nat (length xs))) as [_|?]; [|lia].
    rewrite Hget, (index_lookup _ _ _ Hv). simpl.
    replace (Z.of_nat p + 1) with (Z.of_nat (S p)) by lia.
    specialize (IH (S p) ltac:(lia)).
    destruct (consume hst n _) as [rs s'']. simpl in *.
    rewrite IH, (tail_results_value _ _ _ _ Hv). reflexivity.
  - apply lookup_ge_None in Hv.
    destruct (Z.ltb_spec (Z.of_nat p) (Z.of_nat (length xs))) as [?|_]; [lia|].
    simpl. specialize (IH p Hp).
    destruct (consume hst n _) as [rs s'']. simpl in *.
    rewrite IH, (tail_results_stop _ _ _ Hv). reflexivity.
Qed.

Lemma iter_yields hst obj h xs :
  elements_of hst h obj = Some xs ->
  exists it0,
    iter hst obj h = (Ok it0, h)
    /\ forall n, (consume hst n (h, Plain it0)).1 = tail_results xs 0 n.
Proof.
  intros Hel. unfold iter.
  destruct obj as [| | | | |l| |k d]; cbn [deref];
    try (rewrite Hel; eexists; split; [reflexivity|intros n; apply consume_valueiterator]).
  cbn in Hel.
  destruct (h !! l) as [[]|] eqn:Hl; try discriminate; injection Hel as <-;
    try (cbn; rewrite Hl; eexists; split; [reflexivity|intros n; apply consume_valueiterator]);
    (eexists; split; [reflexivity|]); intros n;
    refine (consume_listiterator hst h (Ref l) _ _ n 0%nat ltac:(lia));
    unfold sequence_at; cbn; auto.
Qed.

Lemma iter__yields hst obj h xs :
  elements_of hst h obj = Some xs ->
  exists it h',
    iter_ hst obj h = (Ok it, h')
    /\ forall n, (consume hst n (h', Plain it)).1 = tail_results xs 0 n.
Proof.
  intros Hel.
  destruct (iter_yields hst obj h xs Hel) as (it0 & Hiter & Hit0).
  destruct obj as [| |s|b|a b|l|start stop step|k d]; try discriminate.
  - exists it0, h. split; [|exact Hit0].
    unfold iter_, isinstance, instance_of, six.PY2, six.PY3. cbn.
    destruct (version hst), (NUMPY_AVAILABLE hst); exact Hiter.
  - exists it0, h. split; [|exact Hit0].
    unfold iter_, isinstance, instance_of, six.PY2, six.PY3. cbn.
    destruct (version hst), (NUMPY_AVAILABLE hst); exact Hiter.
  - cbn in Hel. injection Hel as <-.
    destruct (version hst) eqn:Hpy.
    + exists (Seq (ordered_sequence_iterator.__init__ (VPair a b))), h. split.
      * unfold iter_, isinstance, instance_of, six.PY2, six.PY3. rewrite Hpy. reflexivity.
      * intros n.
        refine (consume_seq_elements hst h (VPair a b) [a; b] _ _ n 0%nat ltac:(cbn; lia));
          reflexivity.
    + exists it0, h. split; [|exact Hit0].
      unfold iter_, isinstance, instance_of, six.PY2, six.PY3. rewrite Hpy. exact Hiter.
  - cbn in Hel. destruct (h !! l) as [o|] eqn:Hl; [|discriminate].
    assert (Hseq : forall ys, o = OList ys \/ o = OTuple ys \/ o = ONdarray ys -> xs = ys ->
              exists it h', iter_ hst (Ref l) h = (Ok it, h')
                /\ forall n, (consume hst n (h', Plain it)).1 = tail_results xs 0 n).
    { intros ys Ho ->. eexists _, h. split; [apply (iter__sequence hst h l o ys Hl Ho)|].
      intros n.
      assert (Hs : sequence_at h (Ref l) ys).
      { unfold sequence_at. cbn. rewrite Hl. destruct Ho as [-> | [-> | ->]]; auto. }
      destruct (wraps_sequence hst o).
      - exact (f_equal fst (consume_sequence hst h _ _ Hs n 0%nat ltac:(lia))).
      - exact (consume_listiterator hst h _ _ Hs n 0%nat ltac:(lia)). }
    destruct o as [ys|ys|ys|items|f|g|ys]; try discriminate; injection Hel as <-;
      try (apply (Hseq ys); auto; fail).
    + destruct (iter__dict hst h l items Hl) as (l' & h' & Hd & Hnone & Hl' & Hkeep).
      eexists _, h'. split; [exact Hd|]. intros n.
      assert (Hs : sequence_at h' (Ref l') (fst <$> items)) by (left; exact Hl').
      exact (f_equal fst (consume_sequence hst h' _ _ Hs n 0%nat ltac:(lia))).
    + exists it0, h. split; [|exact Hit0].
      unfold iter_, isinstance, instance_of, six.PY2, six.PY3. cbn. rewrite Hl.
      destruct (version hst), (NUMPY_AVAILABLE hst); exact Hiter.
  - cbn in Hel. injection Hel as <-.
    destruct (version hst) eqn:Hpy.
    + eexists _, h. split.
      * unfold iter_, isinstance, instance_of, six.PY2, six.PY3. rewrite Hpy. reflexivity.
      * intros n.
        pose proof (consume_range hst h start stop step n 0%nat ltac:(lia)) as Hc.
        rewrite Z.mul_0_r, Z.add_0_r in Hc. cbn. rewrite Hc. reflexivity.
    + exists it0, h. split; [|exact Hit0].
      unfold iter_, isinstance, instance_of, six.PY2, six.PY3. rewrite Hpy. exact Hiter.
  - cbn in Hel. destruct (h !! d) as [[| | |items| | |]|] eqn:Hd; try discriminate.
    injection Hel as <-.
    destruct (version hst) eqn:Hpy.
    + exists it0, h. split; [|exact Hit0].
      unfold iter_, isinstance, instance_of, six.PY2, six.PY3. rewrite Hpy.
      destruct k, (NUMPY_AVAILABLE hst); exact Hiter.
    + eexists _, _. split.
      * unfold iter_, isinstance, instance_of, six.PY2, six.PY3. rewrite Hpy.
        destruct k; cbn; unfold list_, elements_of, alloc, mbind, M_bind, mret, M_ret;
          rewrite Hd; reflexivity.
      * intros n.
        assert (Hs : sequence_at (<[fresh (dom h) := OList (view_values k items)]> h)
                       (Ref (fresh (dom h))) (view_values k items)).
        { left. cbn. apply lookup_insert_eq. }
        exact (f_equal fst (consume_sequence hst _ _ _ Hs n 0%nat ltac:(lia))).
Qed.

(** X12: the dispatcher is a replacement for the host's [iter]: for every
    object that [iter] can iterate over (anything but a file object, which
    is its own iterator), on either Python version and with or without
    numpy, the dispatcher returns an iterator, and that iterator yields
    exactly what the host's iterator yields: the elements the object has at
    dispatch time, in order, then exhaustion. *)
Theorem dispatch_agrees_with_iter hst obj h xs :
  elements_of hst h obj = Some xs ->
  exists it h' it0,
    iter_ hst obj h = (Ok it, h')
    /\ iter hst obj h = (Ok it0, h)
    /\ forall n,
         (consume hst n (h', Plain it)).1 = tail_results xs 0 n
         /\ (consume hst n (h, Plain it0)).1 = (consume hst n (h', Plain it)).1.
Proof.
  intros Hel.
  destruct (iter__yields hst obj h xs Hel) as (it & h' & Hdispatch & Hit).
  destruct (iter_yields hst obj h xs Hel) as (it0 & Hiter & Hit0).
  exists it, h', it0. split; [exact Hdispatch|]. split; [exact Hiter|].
  intros n. split; [apply Hit|]. rewrite Hit, Hit0. reflexivity.
Qed.

Lemma dispatch_agrees_with_iter_witness :
  exists it h' it0,
    iter_ Examples.host2 (Ref 2%positive) Examples.a_dict = (Ok it, h')
    /\ iter Examples.host2 (Ref 2%positive) Examples.a_dict = (Ok it0, Examples.a_dict)
    /\ forall n,
         (consume Examples.host2 n (h', Plain it)).1
         = tail_results [VStr "a"; VStr "b"] 0 n
         /\ (consume Examples.host2 n (Examples.a_dict, Plain it0)).1
            = (consume Examples.host2 n (h', Plain it)).1.
Proof.
  apply (dispatch_agrees_with_iter Examples.host2 (Ref 2%positive) Examples.a_dict
           [VStr "a"; VStr "b"]).
  reflexivity.
Defined.

(** ** Iterators over one file object *)




